(** * The request pipeline of the fraud-scoring service

    A shallow embedding of [app/preprocess.py], [app/inference.py],
    [app/llm.py] and the handlers of [app/api.py]:
    validation, feature assembly, scaling, scoring, risk classification,
    the HTTP handlers [/predict], [/predict/batch], [/health],
    [/model-info], [/sample-transaction] and [/explain], and the loading
    of the artifacts when the service starts.

    Conventions of the embedding.
    - Python numbers are exact rationals ([Q]); rounding, overflow, NaN and
      infinities of binary64 are outside the model.
    - A Python [dict] with string keys is a [gmap string pyval]; dicts live
      in a heap and are passed by reference ([loc]), as in Python.
    - A method is a computation in the monad [M]: it reads and writes the
      world (published model, heap, trace) and returns a value or raises.
    - The trace records, in the order they happen, the log records, the
      calls to the collaborators (scaler, classifier) and the calls of
      the validator.
    - Start-up runs in a monad of its own, [Boot], over the artifact files,
      the two module-level singletons and the log of loading. *)

From Stdlib Require Import ZArith QArith Qround Lia Lqa Ascii.
From stdpp Require Import base option list strings gmap functions pretty.

Local Open Scope string_scope.

(** ** Python values, exceptions and builtins *)
Module Py.

(** A JSON value as Python's [json] module parses it. *)
#[warnings="-register-all"] Inductive pyval : Type :=
| PyNone
| PyBool (b : bool)
| PyInt (n : Z)
| PyFloat (x : Q)
| PyStr (s : string)
| PyList (items : list pyval)
| PyDict (items : list (string * pyval)).

Abbreviation dict := (gmap string pyval).

(** Message texts. The source builds them with f-strings; the embedding
    keeps the template and its arguments. *)
Inductive msg : Type :=
| MsgMissing (missing_features : list string) (* "Отсутствуют признаки: {..}" *)
| MsgNotNumber (feature : string)          (* "Признак {..} должен быть числом" *)
| MsgNegativeAmount      (* "Сумма транзакции не может быть отрицательной" *)
| MsgOK                                    (* "OK" *)
| MsgLargeAmount (amount : Q)   (* "Очень большая сумма транзакции: {..}" *)
| MsgValidation (error_msg : msg)          (* "Ошибка валидации: {..}" *)
| MsgScalerNotLoaded                       (* "Скейлер не загружен. ..." *)
| MsgModelNotLoaded                        (* "Модель не загружена" *)
| MsgFloat (v : pyval)                     (* text of float()'s own error *)
| MsgKey (k : string)                      (* text of a KeyError *)
| MsgExternal (what : string)              (* text of a collaborator's error *)
| MsgPrediction (probability : Q)          (* "Предсказание выполнено. ..." *)
| MsgPredictionError (e : msg)             (* "Ошибка предсказания: {..}" *)
| MsgDetails (fraud_score : Q) (is_fraud : bool) (* "Детальное предсказание: {..}" *)
| MsgDetailsError (e : msg)           (* "Ошибка детального предсказания: {..}" *)
| MsgBatchItemError (i : nat) (e : msg) (* "Ошибка предсказания для транзакции {i}: {..}" *)
| MsgExpectJson                            (* "Ожидается JSON в теле запроса" *)
| MsgEmptyBody                             (* "Пустое тело запроса" *)
| MsgThresholdRange                        (* "Порог должен быть между 0 и 1" *)
| MsgThresholdNumber                       (* "Порог должен быть числом" *)
| MsgValidationError                       (* "Ошибка валидации" *)
| MsgExpectTransactions      (* "Ожидается поле 'transactions' ..." *)
| MsgBatchTooLarge    (* "Максимальное количество транзакций в пакете: 100" *)
| MsgPredictDone (fraud_score : option Q) (is_fraud : option bool)
| MsgBatchDone (n : nat)
| MsgHandlerError (e : msg)
| MsgTraceback
| MsgInternal (e : msg).             (* "Внутренняя ошибка сервера: {..}" *)

(** The exception classes the pipeline meets; all derive from [Exception]. *)
Inductive exn : Type :=
| ValueError (m : msg)
| TypeError (m : msg)
| KeyError (k : string)
| FileNotFoundError (m : msg)
| RuntimeError (m : msg).

(** [str(e)] *)
Definition str (e : exn) : msg :=
  match e with
  | ValueError m | TypeError m | FileNotFoundError m | RuntimeError m => m
  | KeyError k => MsgKey k
  end.

Inductive result (A : Type) : Type :=
| Ok (a : A)
| Raise (e : exn).
Arguments Ok {A} a.
Arguments Raise {A} e.

#[global] Instance result_ret : MRet result := λ A a, Ok a.
#[global] Instance result_bind : MBind result := λ A B f r,
  match r with Ok a => f a | Raise e => Raise e end.

(** The grammar of Python's [float(str)] is not part of this repository. *)
Class FloatGrammar := str_to_float : string → option Q.

(** [float(v)]: numbers and booleans convert, a string converts when it
    parses (ValueError otherwise), anything else is a TypeError. *)
Definition float `{FloatGrammar} (v : pyval) : result Q :=
  match v with
  | PyFloat x => Ok x
  | PyInt n => Ok (inject_Z n)
  | PyBool b => Ok (if b then 1%Q else 0%Q)
  | PyStr s =>
      match str_to_float s with
      | Some x => Ok x
      | None => Raise (ValueError (MsgFloat v))
      end
  | PyNone | PyList _ | PyDict _ => Raise (TypeError (MsgFloat v))
  end.

(** [d[k]] *)
Definition getitem (d : dict) (k : string) : result pyval :=
  match d !! k with
  | Some v => Ok v
  | None => Raise (KeyError k)
  end.

(** [x < y] and [x >= y] on numbers. *)
Definition Qltb (x y : Q) : bool := negb (Qle_bool y x).
Definition Qgeb (x y : Q) : bool := Qle_bool y x.

(** [max(a, b)]: the first argument unless the second is larger. *)
Definition max (a b : Q) : Q := if Qltb a b then b else a.

(** Rounding to the nearest integer, ties to the even one. *)
Definition round_half_even (x : Q) : Z :=
  let f := Qfloor x in
  match (x - inject_Z f ?= 1 # 2)%Q with
  | Lt => f
  | Gt => (f + 1)%Z
  | Eq => if Z.even f then f else (f + 1)%Z
  end.

(** [round(x, ndigits)] *)
Definition round (x : Q) (ndigits : nat) : Q :=
  let scale := inject_Z (10 ^ Z.of_nat ndigits) in
  (inject_Z (round_half_even (x * scale)) / scale)%Q.

End Py.
Export Py.

(** ** The world: published model, heap, trace; the monad of methods *)
Module Runtime.

Inductive level := Info | Warning | Error.

Inductive event : Type :=
| EvLog (lvl : level) (m : msg)          (* logger.info / warning / error *)
| EvValidate                             (* validate_transaction_data entered *)
| EvTransform (x : list Q)               (* scaler.transform(x) *)
| EvPredictProba (x : list Q).           (* model.predict_proba(x) *)

(** The fitted scaler and the trained classifier are opaque artifacts:
    a call returns a value or raises. *)
Definition Scaler := list Q → result (list Q).
Definition Classifier := list Q → result Q.

Record DataPreprocessor := { dp_scaler : option Scaler }.

Record FraudDetectionModel := {
  model : option Classifier;
  scaler : option Scaler;
  metrics : option dict;
  preprocessor : DataPreprocessor
}.

Definition loc := nat.

Record world := World {
  fraud_model : option FraudDetectionModel;  (* the process-wide singleton *)
  heap : loc → dict;                         (* the dict objects *)
  trace : list event
}.

Definition M (A : Type) : Type := world → result A * world.

#[global] Instance M_ret : MRet M := λ A a w, (Ok a, w).
#[global] Instance M_bind : MBind M := λ A B f m w,
  match m w with
  | (Ok a, w') => f a w'
  | (Raise e, w') => (Raise e, w')
  end.

Definition raise {A} (e : exn) : M A := λ w, (Raise e, w).
Definition lift {A} (r : result A) : M A := λ w, (r, w).
Definition gets {A} (f : world → A) : M A := λ w, (Ok (f w), w).
Definition emit (e : event) : M unit := λ w,
  (Ok tt, World (fraud_model w) (heap w) (trace w ++ [e])).
Definition deref (l : loc) : M dict := λ w, (Ok (heap w l), w).
Definition store (l : loc) (d : dict) : M unit := λ w,
  (Ok tt, World (fraud_model w) (<[l := d]> (heap w)) (trace w)).

(** The world after [evs] have been appended to the trace. *)
Definition extend (w : world) (evs : list event) : world :=
  World (fraud_model w) (heap w) (trace w ++ evs).

(** [try: m except Exception as e: h e] *)
Definition try_except {A} (m : M A) (h : exn → M A) : M A := λ w,
  match m w with
  | (Raise e, w') => h e w'
  | r => r
  end.

(** Whether [except (ValueError, TypeError)] catches [e]. *)
Definition is_value_or_type_error (e : exn) : bool :=
  match e with ValueError _ | TypeError _ => true | _ => false end.

End Runtime.
Export Runtime.

(** ** app/preprocess.py *)
Module preprocess.
Section with_grammar.
Context `{FloatGrammar}.

(** preprocess.py:62-66 *)
Definition required_features : list string :=
  [ "V1"; "V2"; "V3"; "V4"; "V5"; "V6"; "V7"; "V8"; "V9"; "V10";
    "V11"; "V12"; "V13"; "V14"; "V15"; "V16"; "V17"; "V18"; "V19"; "V20";
    "V21"; "V22"; "V23"; "V24"; "V25"; "V26"; "V27"; "V28"; "Amount" ].

(** preprocess.py:69 *)
Definition missing (data : dict) (features : list string) : list string :=
  filter (λ f, data !! f = None) features.

(** preprocess.py:74-78, the loop over the features: the first one whose
    value [float] refuses with a ValueError or a TypeError, if any. *)
Fixpoint first_not_number (data : dict) (features : list string)
  : result (option string) :=
  match features with
  | [] => Ok None
  | feature :: rest =>
      match getitem data feature ≫= float with
      | Ok _ => first_not_number data rest
      | Raise e =>
          if is_value_or_type_error e then Ok (Some feature) else Raise e
      end
  end.

(** preprocess.py:52-88. The first step marks the call on the trace. *)
Definition validate_transaction_data (data : loc) : M (bool * msg) :=
  _ ← emit EvValidate;
  d ← deref data;
  match missing d required_features with
  | (_ :: _) as missing_features =>
      mret (false, MsgMissing missing_features)
  | [] =>
      bad ← lift (first_not_number d required_features);
      match bad with
      | Some feature => mret (false, MsgNotNumber feature)
      | None =>
          amount ← lift (getitem d "Amount" ≫= float);
          if Qltb amount 0 then mret (false, MsgNegativeAmount)
          else
            _ ← (if Qltb 100000 amount
                 then emit (EvLog Warning (MsgLargeAmount amount))
                 else mret tt);
            mret (true, MsgOK)
      end
  end.

(** preprocess.py:106-110 *)
Definition feature_names : list string :=
  [ "Time"; "V1"; "V2"; "V3"; "V4"; "V5"; "V6"; "V7"; "V8"; "V9"; "V10";
    "V11"; "V12"; "V13"; "V14"; "V15"; "V16"; "V17"; "V18"; "V19"; "V20";
    "V21"; "V22"; "V23"; "V24"; "V25"; "V26"; "V27"; "V28"; "Amount" ].

(** preprocess.py:117-119, the loop that fills [features]. *)
Fixpoint collect (data : dict) (names : list string) : result (list Q) :=
  match names with
  | [] => Ok []
  | feature :: rest =>
      x ← getitem data feature ≫= float;
      xs ← collect data rest;
      mret (x :: xs)
  end.

(** preprocess.py:90-129 *)
Definition prepare_features (self : DataPreprocessor) (data : loc)
  : M (list Q) :=
  '(is_valid, error_msg) ← validate_transaction_data data;
  if negb is_valid then raise (ValueError (MsgValidation error_msg))
  else
    d ← deref data;
    _ ← (if bool_decide (d !! "Time" = None)
         then store data (<["Time" := PyInt 0]> d)
         else mret tt);
    d ← deref data;
    features ← lift (collect d feature_names);
    match dp_scaler self with
    | None => raise (ValueError MsgScalerNotLoaded)
    | Some sc =>
        _ ← emit (EvTransform features);
        lift (sc features)
    end.

End with_grammar.
End preprocess.

(** ** app/inference.py *)
Module inference.

(** The five risk labels of inference.py:154-163, lowest first:
    "Очень низкий", "Низкий", "Средний", "Высокий", "Очень высокий". *)
Inductive risk := VeryLow | Low | Medium | High | VeryHigh.

(** The dict a prediction returns, one field per key; [None] stands for a
    key that holds Python's None or is absent. *)
Record prediction := Prediction {
  error : option msg;
  fraud_score : option Q;
  is_fraud : option bool;
  confidence : option Q;
  risk_level : option risk;
  threshold : option Q;
  model_info : option (pyval * pyval);   (* model_name, model_auc *)
  transaction_id : option nat;
  valid : option bool
}.

(** [{"error": m, "fraud_score": None, "is_fraud": None, "confidence": None}] *)
Definition error_payload (m : msg) : prediction :=
  Prediction (Some m) None None None None None None None None.

(** [result["transaction_id"] = i] and [result["valid"] = b] *)
Definition set_transaction_id (i : nat) (r : prediction) : prediction :=
  Prediction (error r) (fraud_score r) (is_fraud r) (confidence r)
    (risk_level r) (threshold r) (model_info r) (Some i) (valid r).
Definition set_valid (b : bool) (r : prediction) : prediction :=
  Prediction (error r) (fraud_score r) (is_fraud r) (confidence r)
    (risk_level r) (threshold r) (model_info r) (transaction_id r) (Some b).

(** inference.py:154-163 *)
Definition risk_of (probability : Q) : risk :=
  if Qltb probability 0.1 then VeryLow
  else if Qltb probability 0.3 then Low
  else if Qltb probability 0.7 then Medium
  else if Qltb probability 0.9 then High
  else VeryHigh.

(** [self.metrics.get(key, "Unknown") if self.metrics else "Unknown"] *)
Definition metrics_get (metrics : option dict) (key : string) : pyval :=
  match metrics with
  | Some m => default (PyStr "Unknown") (m !! key)
  | None => PyStr "Unknown"
  end.

Section with_grammar.
Context `{FloatGrammar}.

(** inference.py:82-108 *)
Definition predict_fraud_probability (self : FraudDetectionModel)
    (transaction_data : loc) : M Q :=
  match model self with
  | None => raise (ValueError MsgModelNotLoaded)
  | Some clf =>
      try_except
        (features ← preprocess.prepare_features (preprocessor self)
                      transaction_data;
         _ ← emit (EvPredictProba features);
         probability ← lift (clf features);
         _ ← emit (EvLog Info (MsgPrediction probability));
         mret probability)
        (λ e,
         _ ← emit (EvLog Error (MsgPredictionError (str e)));
         raise e)
  end.

(** inference.py:110-122 *)
Definition predict_fraud_class (self : FraudDetectionModel)
    (transaction_data : loc) (threshold : Q) : M bool :=
  probability ← predict_fraud_probability self transaction_data;
  mret (Qgeb probability threshold).

(** inference.py:124-188 *)
Definition predict_with_details (self : FraudDetectionModel)
    (transaction_data : loc) (threshold : Q) : M prediction :=
  try_except
    ('(is_valid, error_msg) ←
        preprocess.validate_transaction_data transaction_data;
     if negb is_valid then mret (error_payload error_msg)
     else
       probability ← predict_fraud_probability self transaction_data;
       let is_fraud := Qgeb probability threshold in
       let confidence := Py.max probability (1 - probability) in
       let risk_level := risk_of probability in
       let result :=
         Prediction None (Some (round probability 4)) (Some is_fraud)
           (Some (round confidence 4)) (Some risk_level) (Some threshold)
           (Some (metrics_get (metrics self) "model_name",
                  metrics_get (metrics self) "roc_auc"))
           None None in
       _ ← emit (EvLog Info (MsgDetails (round probability 4) is_fraud));
       mret result)
    (λ e,
     _ ← emit (EvLog Error (MsgDetailsError (str e)));
     mret (error_payload (str e))).

(** inference.py:190-217. The loop over [enumerate(transactions)], from
    index [i] on. The handler's payload carries no "confidence" key. *)
Fixpoint batch_predict_from (self : FraudDetectionModel) (i : nat)
    (transactions : list loc) (threshold : Q) : M (list prediction) :=
  match transactions with
  | [] => mret []
  | transaction :: rest =>
      r ← try_except
            (result ← predict_with_details self transaction threshold;
             mret (set_transaction_id i result))
            (λ e,
             _ ← emit (EvLog Error (MsgBatchItemError i (str e)));
             mret (set_transaction_id i (error_payload (str e))));
      results ← batch_predict_from self (S i) rest threshold;
      mret (r :: results)
  end.

Definition batch_predict (self : FraudDetectionModel)
    (transactions : list loc) (threshold : Q) : M (list prediction) :=
  batch_predict_from self 0 transactions threshold.

(** inference.py:245-260. The singleton is the model the service
    published at start-up. Loading the artifacts from disk is not part of
    the embedding: with no published model [FraudDetectionModel(model_dir)]
    raises, as [load_model] does when the files are missing. *)
Definition get_model : M FraudDetectionModel :=
  g ← gets fraud_model;
  match g with
  | Some m => mret m
  | None => raise (FileNotFoundError (MsgExternal "model.pkl"))
  end.

(** inference.py:262-274 *)
Definition predict_fraud (transaction_data : loc) (threshold : Q)
  : M prediction :=
  m ← get_model;
  predict_with_details m transaction_data threshold.

(** inference.py:276-312 *)
Definition validate_and_predict (transaction_data : loc) (threshold : Q)
  : M prediction :=
  try_except
    ('(is_valid, error_msg) ←
        preprocess.validate_transaction_data transaction_data;
     if negb is_valid
     then mret (set_valid false (error_payload error_msg))
     else
       result ← predict_fraud transaction_data threshold;
       mret (set_valid true result))
    (λ e, mret (set_valid false (error_payload (str e)))).

End with_grammar.
End inference.

(** ** app/api.py: the handlers of /predict and /predict/batch *)
Module api.
Import inference.

(** The JSON body of a response (without its timestamp). *)
Inductive body : Type :=
| ErrorBody (error : msg)
| PredictBody (fraud_score : option Q) (is_fraud : option bool)
    (confidence : option Q) (risk_level : option risk) (threshold : Q)
    (model_info : option (pyval * pyval))
| BatchBody (results : list prediction) (total_transactions : nat)
    (threshold : Q).

(** [jsonify(body), status] *)
Definition response : Type := body * nat.

(** A /predict request: whether it carries JSON, and the dict parsed from
    its body. *)
Record Request := { is_json : bool; get_json : loc }.

(** A /predict/batch request: the body's "transactions" (a list of dicts)
    and "threshold" entries, each absent or present. *)
Record BatchRequest := {
  batch_is_json : bool;
  batch_transactions : option (list loc);
  batch_threshold : option pyval
}.

Section with_grammar.
Context `{FloatGrammar}.

(** api.py:140-153 and 260-269: the threshold as a number in [0, 1], or
    the message of the rejection. *)
Definition parse_threshold (threshold : pyval) : result (Q + msg) :=
  match float threshold with
  | Ok threshold =>
      if negb (Qle_bool 0 threshold && Qle_bool threshold 1)
      then Ok (inr MsgThresholdRange)
      else Ok (inl threshold)
  | Raise e =>
      if is_value_or_type_error e then Ok (inr MsgThresholdNumber)
      else Raise e
  end.

(** [data.pop(key, dflt)] *)
Definition pop (data : loc) (key : string) (dflt : pyval) : M pyval :=
  d ← deref data;
  _ ← store data (delete key d);
  mret (default dflt (d !! key)).

(** api.py:95-193 *)
Definition predict_fraud (request : Request) : M response :=
  try_except
    (g ← gets fraud_model;
     match g with
     | None => mret (ErrorBody MsgModelNotLoaded, 503)
     | Some _ =>
         if negb (is_json request) then mret (ErrorBody MsgExpectJson, 400)
         else
           let data := get_json request in
           d ← deref data;
           if bool_decide (size d = 0) then mret (ErrorBody MsgEmptyBody, 400)
           else
             threshold ← pop data "threshold" (PyFloat 0.5);
             t ← lift (parse_threshold threshold);
             match t with
             | inr m => mret (ErrorBody m, 400)
             | inl threshold =>
                 result ← validate_and_predict data threshold;
                 if negb (default true (valid result))
                 then mret (ErrorBody
                              (default MsgValidationError (error result)),
                            400)
                 else
                   _ ← emit (EvLog Info (MsgPredictDone (fraud_score result)
                                           (is_fraud result)));
                   mret (PredictBody (fraud_score result) (is_fraud result)
                           (confidence result) (risk_level result)
                           threshold (model_info result),
                         200)
             end
     end)
    (λ e,
     _ ← emit (EvLog Error (MsgHandlerError (str e)));
     _ ← emit (EvLog Error MsgTraceback);
     mret (ErrorBody (MsgInternal (str e)), 500)).

(** api.py:221-296 *)
Definition predict_batch (request : BatchRequest) : M response :=
  try_except
    (g ← gets fraud_model;
     match g with
     | None => mret (ErrorBody MsgModelNotLoaded, 503)
     | Some fraud_model =>
         if negb (batch_is_json request)
         then mret (ErrorBody MsgExpectJson, 400)
         else
           match batch_transactions request with
           | None => mret (ErrorBody MsgExpectTransactions, 400)
           | Some transactions =>
               let threshold :=
                 default (PyFloat 0.5) (batch_threshold request) in
               t ← lift (parse_threshold threshold);
               match t with
               | inr m => mret (ErrorBody m, 400)
               | inl threshold =>
                   if (100 <? length transactions)%nat
                   then mret (ErrorBody MsgBatchTooLarge, 400)
                   else
                     results ←
                       batch_predict fraud_model transactions threshold;
                     _ ← emit (EvLog Info
                                 (MsgBatchDone (length transactions)));
                     mret (BatchBody results (length transactions) threshold,
                           200)
               end
           end
     end)
    (λ e,
     _ ← emit (EvLog Error (MsgHandlerError (str e)));
     mret (ErrorBody (str e), 500)).

End with_grammar.
End api.

(** ** Worlds and artifacts for the examples *)
Module examples.

(** A grammar that reads unsigned decimal integers only. *)
Fixpoint digits (s : string) (acc : Z) : option Z :=
  match s with
  | EmptyString => Some acc
  | String c s' =>
      let n := Z.of_nat (Ascii.nat_of_ascii c) in
      if ((48 <=? n) && (n <=? 57))%Z
      then digits s' (10 * acc + (n - 48))%Z
      else None
  end.

#[export] Instance decimal_digits : FloatGrammar := λ s,
  match s with
  | EmptyString => None
  | _ => inject_Z <$> digits s 0
  end.

(** preprocess.py:131-168, [create_sample_transaction]. *)
Definition create_sample_transaction : dict :=
  list_to_map
    [ ("V1", PyFloat (-1.3598071336738)); ("V2", PyFloat (-0.0727811733098497));
      ("V3", PyFloat 2.53634673796914); ("V4", PyFloat 1.37815522427443);
      ("V5", PyFloat (-0.338320769942518)); ("V6", PyFloat 0.462387777762292);
      ("V7", PyFloat 0.239598554061257); ("V8", PyFloat 0.0986979012610507);
      ("V9", PyFloat 0.363786969611213); ("V10", PyFloat 0.0907941719789316);
      ("V11", PyFloat (-0.551599533260813)); ("V12", PyFloat (-0.617800855762348));
      ("V13", PyFloat (-0.991389847235408)); ("V14", PyFloat (-0.311169353699879));
      ("V15", PyFloat 1.46817697209427); ("V16", PyFloat (-0.470400525259478));
      ("V17", PyFloat 0.207971241929242); ("V18", PyFloat 0.0257905801985591);
      ("V19", PyFloat 0.403992960255733); ("V20", PyFloat 0.251412098239705);
      ("V21", PyFloat (-0.018306777944153)); ("V22", PyFloat 0.277837575558899);
      ("V23", PyFloat (-0.110473910188767)); ("V24", PyFloat 0.0669280749146731);
      ("V25", PyFloat 0.128539358273528); ("V26", PyFloat (-0.189114843888824));
      ("V27", PyFloat 0.133558376740387); ("V28", PyFloat (-0.0210530534538215));
      ("Amount", PyFloat 149.62) ].

(** A scaler that subtracts [mean] and divides by [scale] in every
    dimension, and a classifier that answers [p] whatever it is given. *)
Definition affine_scaler (mean scale : Q) : Scaler := λ x,
  Ok ((λ v, (v - mean) / scale)%Q <$> x).
Definition constant_classifier (p : Q) : Classifier := λ _, Ok p.

Definition loaded_model (p : Q) : FraudDetectionModel :=
  {| model := Some (constant_classifier p);
     scaler := Some (affine_scaler 0 1);
     metrics := None;
     preprocessor := {| dp_scaler := Some (affine_scaler 0 1) |} |}.

(** A world whose published model scores [p] and whose heap holds [d] at
    every location. *)
Definition world_of (p : Q) (d : dict) : world :=
  World (Some (loaded_model p)) (λ _, d) [].

(** A record with every required field numeric and a negative amount. *)
Definition refund : dict :=
  <["Amount" := PyInt (-1)]> create_sample_transaction.
(** The sample with a "Time" that is JSON null. *)
Definition null_time : dict := <["Time" := PyNone]> create_sample_transaction.
(** The sample without "V7" and "V12", and with a "V3" that is a word. *)
Definition no_V7_V12 : dict :=
  delete "V12" (delete "V7" create_sample_transaction).

(** A world for a batch of three: the sample at 0 and 2, a record with
    missing fields at 1. *)
Definition batch_world (p : Q) : world :=
  World (Some (loaded_model p))
    (λ l, if (l =? 1)%nat then no_V7_V12 else create_sample_transaction) [].
Definition batch_of_three : api.BatchRequest :=
  {| api.batch_is_json := true;
     api.batch_transactions := Some [0; 1; 2]%nat;
     api.batch_threshold := None |}.

End examples.

(** ** Vocabulary of the statements *)
Section vocabulary.
Context `{FloatGrammar}.
Import preprocess inference api.

(** What validation answers and logs on a record [d], whatever world
    holds it. *)
Definition validation_of (d : dict) : result (bool * msg) :=
  fst (validate_transaction_data 0%nat (World None (λ _, d) [])).
Definition validation_events (d : dict) : list event :=
  trace (snd (validate_transaction_data 0%nat (World None (λ _, d) []))).

(** Presence and coercibility of a field. *)
Definition present (d : dict) (f : string) : Prop := is_Some (d !! f).
Definition numeric (d : dict) (f : string) : Prop :=
  ∃ v x, d !! f = Some v ∧ float v = Ok x.

(** Spec, section 3: a TransactionRecord maps feature names to numeric
    values. *)
Definition TransactionRecord (d : dict) : Prop :=
  ∀ k v, d !! k = Some v → ∃ x, float v = Ok x.

(** The dict a call of [prepare_features] reads its features from: the
    record itself, with "Time" set to 0 when it had none. *)
Definition with_default_time (d : dict) : dict :=
  if bool_decide (d !! "Time" = None) then <["Time" := PyInt 0]> d else d.

(** The result of a prediction that scored [p] against [t]. *)
Definition scored (self : FraudDetectionModel) (p t : Q) : prediction :=
  Prediction None (Some (round p 4)) (Some (Qgeb p t))
    (Some (round (Py.max p (1 - p)) 4)) (Some (risk_of p)) (Some t)
    (Some (metrics_get (metrics self) "model_name",
           metrics_get (metrics self) "roc_auc"))
    None None.

(** What the methods return on a record [d], whatever world holds it. *)
Definition scratch (d : dict) : world := World None (λ _, d) [].
Definition features_of (self : DataPreprocessor) (d : dict)
  : result (list Q) :=
  fst (prepare_features self 0%nat (scratch d)).
Definition probability_of (self : FraudDetectionModel) (d : dict)
  : result Q :=
  fst (predict_fraud_probability self 0%nat (scratch d)).
Definition details_of (self : FraudDetectionModel) (d : dict) (t : Q)
  : result prediction :=
  fst (predict_with_details self 0%nat t (scratch d)).

(** What a prediction returns for a published model and a record. *)
Definition response_of (g : option FraudDetectionModel) (d : dict) (t : Q)
  : result prediction :=
  fst (validate_and_predict 0%nat t (World g (λ _, d) [])).

(** Whether a prediction on [d] writes the default "Time" into it. *)
Definition adds_time (self : FraudDetectionModel) (d : dict) : bool :=
  match model self, validation_of d with
  | Some _, Ok (true, _) => bool_decide (d !! "Time" = None)
  | _, _ => false
  end.

Definition heap_after (self : FraudDetectionModel) (l : loc)
    (h : loc → dict) : loc → dict :=
  if adds_time self (h l) then <[l := <["Time" := PyInt 0]> (h l)]> h else h.

(** The tiers in ascending order. *)
Definition tier_rank (r : risk) : nat :=
  match r with
  | VeryLow => 0 | Low => 1 | Medium => 2 | High => 3 | VeryHigh => 4
  end.


End vocabulary.

(** ** app/inference.py and app/api.py: model information and health *)
Module info.
Import inference.

(** The number of code points of a UTF-8 string: its bytes that do not
    continue a character. *)
Definition code_points (s : string) : nat :=
  length (filter (λ c, let n := Ascii.nat_of_ascii c in
                       (n <? 128)%nat || (192 <=? n)%nat = true)
            (String.list_ascii_of_string s)).

(** [len(v)]; the keys of a dict count once. *)
Definition len (v : pyval) : result nat :=
  match v with
  | PyStr s => Ok (code_points s)
  | PyList items => Ok (length items)
  | PyDict items => Ok (length (remove_dups items.*1))
  | PyNone | PyBool _ | PyInt _ | PyFloat _ =>
      Raise (TypeError (MsgExternal "object has no len()"))
  end.

(** The dict [get_model_info] returns; [None] stands for an absent key. *)
Record model_info := ModelInfo {
  model_loaded : bool;
  scaler_loaded : bool;
  model_dir : string;
  model_name : option pyval;
  model_auc : option pyval;
  feature_count : option nat
}.

(** inference.py:219-239. [self.model_dir] is not a field of the record
    [FraudDetectionModel]: it is passed beside [self]. *)
Definition get_model_info (self : FraudDetectionModel) (model_dir : string)
  : result model_info :=
  let model_loaded := bool_decide (is_Some (model self)) in
  let scaler_loaded := bool_decide (is_Some (scaler self)) in
  match metrics self with
  | Some m =>
      if bool_decide (size m = 0%nat)
      then Ok (ModelInfo model_loaded scaler_loaded model_dir None None None)
      else
        n ← len (default (PyList []) (m !! "feature_names"));
        mret (ModelInfo model_loaded scaler_loaded model_dir
                (Some (default (PyStr "Unknown") (m !! "model_name")))
                (Some (default (PyStr "Unknown") (m !! "roc_auc")))
                (Some n))
  | None => Ok (ModelInfo model_loaded scaler_loaded model_dir None None None)
  end.

(** The JSON bodies of /health, /model-info and /sample-transaction
    (without their timestamps and fixed texts). *)
Inductive body : Type :=
| HealthBody (status_ok : bool) (model_loaded : bool)
    (model_info : option model_info) (version : string)
| InfoBody (info : model_info)
| SampleBody (sample_transaction : dict)
| ErrorBody (error : msg).

(** api.py:55-93. The log records of the handlers keep the text of the
    exception. *)
Definition health_check (model_dir : string) : M (body * nat) :=
  try_except
    (g ← gets fraud_model;
     let model_status := bool_decide (is_Some g) in
     model_info ←
       match g with
       | Some fraud_model =>
           try_except
             (i ← lift (get_model_info fraud_model model_dir);
              mret (Some i))
             (λ e,
              _ ← emit (EvLog Warning (MsgHandlerError (str e)));
              mret None)
       | None => mret None
       end;
     mret (HealthBody model_status model_status model_info "1.0.0",
           if model_status then 200%nat else 503%nat))
    (λ e,
     _ ← emit (EvLog Error (MsgHandlerError (str e)));
     mret (ErrorBody (str e), 500%nat)).

(** api.py:195-219, the handler [get_model_info] of /model-info; the
    method of the same name is above. *)
Definition get_model_info_handler (model_dir : string) : M (body * nat) :=
  try_except
    (g ← gets fraud_model;
     match g with
     | None => mret (ErrorBody MsgModelNotLoaded, 503%nat)
     | Some fraud_model =>
         i ← lift (get_model_info fraud_model model_dir);
         mret (InfoBody i, 200%nat)
     end)
    (λ e,
     _ ← emit (EvLog Error (MsgHandlerError (str e)));
     mret (ErrorBody (str e), 500%nat)).

(** api.py:298-320 *)
Definition get_sample_transaction : M (body * nat) :=
  try_except
    (mret (SampleBody examples.create_sample_transaction, 200%nat))
    (λ e,
     _ ← emit (EvLog Error (MsgHandlerError (str e)));
     mret (ErrorBody (str e), 500%nat)).

End info.

(** ** app/llm.py and the /explain handler of app/api.py *)
Module explain.
Import inference.

(** The Gemini model once it is built. A call formats the prompt from the
    transaction and the result, reads the generation settings and asks
    the service for the text: each of these may raise. The service is not
    part of this repository. *)
Definition Gemini := dict → prediction → result string.

(** What llm.py finds when it is imported: whether [google.generativeai]
    can be imported, whether GEMINI_API_KEY is set to a non-empty text,
    and what [genai.configure] and [genai.GenerativeModel] give. *)
Class Environment := {
  genai_installed : bool;
  api_key_set : bool;
  GenerativeModel : result Gemini
}.

(** The log records of llm.py. *)
Inductive record : Type :=
| LibraryMissing                        (* warning, llm.py:33 *)
| KeyMissing                            (* warning, llm.py:37 *)
| Initialised                           (* info, llm.py:45 *)
| InitError (e : msg)                   (* error, llm.py:47 *)
| ExplainError (e : msg).               (* error, llm.py:127 *)

(** The state of the module: the global [_MODEL] and its log. *)
Record llm := Llm { MODEL : option Gemini; records : list record }.

(** What [explain_transaction] returns: the fixed text for a missing LLM,
    the text the LLM produced, or the text that reports its failure. *)
Inductive explanation : Type :=
| Unavailable
| Generated (text : string)
| Failed (e : msg).

Section with_environment.
Context `{Environment}.

(** llm.py:27-48 *)
Definition init_model (s : llm) : llm :=
  match MODEL s with
  | Some _ => s
  | None =>
      if negb genai_installed then Llm None (records s ++ [LibraryMissing])
      else if negb api_key_set then Llm None (records s ++ [KeyMissing])
      else
        match GenerativeModel with
        | Ok m => Llm (Some m) (records s ++ [Initialised])
        | Raise e => Llm None (records s ++ [InitError (str e)])
        end
  end.

(** llm.py:51-54 *)
Definition llm_available (s : llm) : bool * llm :=
  let s := init_model s in
  (bool_decide (is_Some (MODEL s)), s).

(** llm.py:57-128 *)
Definition explain_transaction (transaction : dict) (result : prediction)
    (s : llm) : explanation * llm :=
  let '(available, s) := llm_available s in
  match available, MODEL s with
  | true, Some m =>
      match m transaction result with
      | Ok text => (Generated text, s)
      | Raise e =>
          (Failed (str e), Llm (MODEL s) (records s ++ [ExplainError (str e)]))
      end
  | _, _ => (Unavailable, s)
  end.

End with_environment.

(** Whether a message is a non-empty text: the text of a collaborator's
    exception can be empty, every other message has words. *)
Definition nonempty (m : msg) : bool :=
  match m with
  | MsgExternal "" => false
  | _ => true
  end.

Inductive body : Type :=
| ErrorBody (error : msg)
| ExplainBody (explanation : explanation) (fraud_score : option Q)
    (is_fraud : option bool) (confidence : option Q)
    (risk_level : option risk) (threshold : Q)
    (model_info : option (pyval * pyval)) (llm_enabled : bool).

(** An /explain request: the dict parsed from the body, and the dict
    under its "transaction" key when the key is there and not null. *)
Record Request := {
  is_json : bool;
  payload : loc;
  transaction_field : option loc
}.

Section with_grammar.
Context `{FloatGrammar} `{Environment}.

(** api.py:322-377. The handler threads the state of llm.py beside the
    world: it answers with the body, the status and that state. *)
Definition explain_fraud (request : Request) (s : llm)
  : M (body * nat * llm) :=
  try_except
    (g ← gets fraud_model;
     match g with
     | None => mret (ErrorBody MsgModelNotLoaded, 503%nat, s)
     | Some fraud_model =>
         if negb (is_json request)
         then mret (ErrorBody MsgExpectJson, 400%nat, s)
         else
           let transaction :=
             default (payload request) (transaction_field request) in
           p ← deref (payload request);
           let threshold := default (PyFloat 0.5) (p !! "threshold") in
           t ← lift (api.parse_threshold threshold);
           match t with
           | inr m => mret (ErrorBody m, 400%nat, s)
           | inl threshold =>
               result ← predict_with_details fraud_model transaction threshold;
               if from_option nonempty false (error result)
               then mret (ErrorBody (default MsgValidationError (error result)),
                          400%nat, s)
               else
                 d ← deref transaction;
                 let '(explanation, s) := explain_transaction d result s in
                 let '(llm_enabled, s) := llm_available s in
                 mret (ExplainBody explanation
                         (fraud_score result) (is_fraud result)
                         (confidence result) (risk_level result)
                         (default threshold (inference.threshold result))
                         (model_info result) llm_enabled, 200%nat, s)
           end
     end)
    (λ e,
     _ ← emit (EvLog Error (MsgHandlerError (str e)));
     _ ← emit (EvLog Error MsgTraceback);
     mret (ErrorBody (MsgInternal (str e)), 500%nat, s)).

End with_grammar.
End explain.

(** ** Start-up: loading the artifacts and publishing the model *)
Module startup.

(** The service starts by loading three files from a model directory and
    by publishing the model in two module-level variables. The world of
    the handlers begins where start-up ends: its [fraud_model] is the
    model of [api_model]. *)

(** [os.path.join(a, b)] on POSIX, for a relative [b]. *)
Fixpoint ends_with_slash (a : string) : bool :=
  match a with
  | EmptyString => false
  | String c EmptyString => bool_decide (c = "/"%char)
  | String _ rest => ends_with_slash rest
  end.
Definition path_join (a b : string) : string :=
  match a with
  | EmptyString => b
  | _ => if ends_with_slash a then a +:+ b else a +:+ "/" +:+ b
  end.

(** The artifact files: what [joblib.load] gives at a path, when a file
    is there. The store never changes while the service runs. *)
Record disk := Disk {
  classifier_file : string → option (result Classifier);
  scaler_file : string → option (result Scaler);
  metrics_file : string → option (result dict)
}.

(** What loading raises: the two FileNotFoundError of [load_model], or
    the exception of [joblib.load]. *)
Inductive load_error : Type :=
| ModelNotFound (path : string)        (* "Модель не найдена: {path}" *)
| ScalerNotFound (path : string)       (* "Скейлер не найден: {path}" *)
| LoadFailed (e : exn).

(** The log records of loading. *)
Inductive record : Type :=
| ScalerLoadedFrom (path : string)       (* preprocess.py:47 *)
| ScalerLoadError (e : load_error)       (* preprocess.py:49 *)
| ModelLoaded (path : string)            (* inference.py:62 *)
| ScalerLoaded (path : string)           (* inference.py:66 *)
| MetricsLoaded (path : string)          (* inference.py:71 *)
| ModelInitialised                       (* inference.py:76 *)
| ModelLoadError (e : load_error)        (* inference.py:79 *)
| ApiInitialised                         (* api.py:49 *)
| ApiInitError (e : load_error).         (* api.py:52 *)

(** A constructed [FraudDetectionModel] with its [model_dir]. *)
Record instance := Instance { model_dir : string; this : FraudDetectionModel }.

(** The process at start-up: the disk, [inference._global_model],
    [api.fraud_model] and the log. *)
Record process := Process {
  files : disk;
  global_model : option instance;
  api_model : option instance;
  records : list record
}.

Inductive outcome (A : Type) : Type :=
| Done (a : A)
| Failed (e : load_error).
Arguments Done {A} a.
Arguments Failed {A} e.

Definition Boot (A : Type) : Type := process → outcome A * process.

#[global] Instance Boot_ret : MRet Boot := λ A a s, (Done a, s).
#[global] Instance Boot_bind : MBind Boot := λ A B f m s,
  match m s with
  | (Done a, s') => f a s'
  | (Failed e, s') => (Failed e, s')
  end.

Definition fail {A} (e : load_error) : Boot A := λ s, (Failed e, s).
Definition log (r : record) : Boot unit := λ s,
  (Done tt, Process (files s) (global_model s) (api_model s)
              (records s ++ [r])).
Definition catch {A} (m : Boot A) (h : load_error → Boot A) : Boot A := λ s,
  match m s with
  | (Failed e, s') => h e s'
  | r => r
  end.

(** [joblib.load(path)] of a file read through [view]; a missing file
    makes it raise. *)
Definition joblib_load {A} (view : disk → string → option (result A))
    (path : string) : Boot A := λ s,
  match view (files s) path with
  | Some (Ok a) => (Done a, s)
  | Some (Raise e) => (Failed (LoadFailed e), s)
  | None => (Failed (LoadFailed (FileNotFoundError (MsgExternal path))), s)
  end.

(** [os.path.exists(path)] for a file read through [view]. *)
Definition exists_ {A} (view : disk → string → option (result A))
    (path : string) : Boot bool := λ s,
  (Done (bool_decide (is_Some (view (files s) path))), s).

(** preprocess.py:38-50 *)
Definition load_scaler (scaler_path : string) : Boot DataPreprocessor :=
  catch
    (sc ← joblib_load scaler_file scaler_path;
     _ ← log (ScalerLoadedFrom scaler_path);
     mret {| dp_scaler := Some sc |})
    (λ e, _ ← log (ScalerLoadError e); fail e).

(** preprocess.py:25-36, [DataPreprocessor(scaler_path)] *)
Definition DataPreprocessor_init (scaler_path : option string)
  : Boot DataPreprocessor :=
  match scaler_path with
  | None | Some EmptyString => mret {| dp_scaler := None |}
  | Some path =>
      there ← exists_ scaler_file path;
      if (there : bool) then load_scaler path
      else mret {| dp_scaler := None |}
  end.

(** inference.py:46-80 *)
Definition load_model (model_dir : string) : Boot FraudDetectionModel :=
  catch
    (let model_path := path_join model_dir "model.pkl" in
     let scaler_path := path_join model_dir "scaler.pkl" in
     let metrics_path := path_join model_dir "metrics.pkl" in
     model_there ← exists_ classifier_file model_path;
     if negb model_there then fail (ModelNotFound model_path)
     else
       scaler_there ← exists_ scaler_file scaler_path;
       if negb scaler_there then fail (ScalerNotFound scaler_path)
       else
         model ← joblib_load classifier_file model_path;
         _ ← log (ModelLoaded model_path);
         scaler ← joblib_load scaler_file scaler_path;
         _ ← log (ScalerLoaded scaler_path);
         metrics_there ← exists_ metrics_file metrics_path;
         metrics ←
           (if (metrics_there : bool)
            then (m ← joblib_load metrics_file metrics_path;
                  _ ← log (MetricsLoaded metrics_path);
                  mret (Some m))
            else mret None);
         preprocessor ← DataPreprocessor_init (Some scaler_path);
         _ ← log ModelInitialised;
         mret {| model := Some model; scaler := Some scaler;
                 metrics := metrics; preprocessor := preprocessor |})
    (λ e, _ ← log (ModelLoadError e); fail e).

(** The two directories the code computes from [__file__]. *)
Class Layout := {
  inference_default_dir : string;    (* inference.py:33-34 *)
  api_model_dir : string             (* api.py:47 *)
}.

Section with_layout.
Context `{Layout}.

(** inference.py:24-44, [FraudDetectionModel(model_dir)] *)
Definition FraudDetectionModel_init (model_dir : option string) : Boot instance :=
  let dir := default inference_default_dir model_dir in
  m ← load_model dir;
  mret (Instance dir m).

(** inference.py:245-260; the default of [model_dir] is "../model". *)
Definition get_model (model_dir : string) : Boot instance := λ s,
  match global_model s with
  | Some i => (Done i, s)
  | None =>
      match FraudDetectionModel_init (Some model_dir) s with
      | (Done i, s') =>
          (Done i, Process (files s') (Some i) (api_model s') (records s'))
      | (Failed e, s') => (Failed e, s')
      end
  end.

(** api.py:43-53 *)
Definition initialize_model : Boot bool :=
  catch
    (i ← get_model api_model_dir;
     _ ← (λ s, (Done tt, Process (files s) (global_model s) (Some i)
                           (records s)));
     _ ← log ApiInitialised;
     mret true)
    (λ e, _ ← log (ApiInitError e); mret false).

End with_layout.
End startup.

(** ** Artifacts, disks and environments for the examples *)
Module fixtures.
Import examples.

(** A preprocessor built without a scaler file. *)
Definition no_scaler : DataPreprocessor := {| dp_scaler := None |}.

(** The metrics a training run saves. *)
Definition trained_metrics : dict :=
  list_to_map
    [ ("model_name", PyStr "XGBoost"); ("roc_auc", PyFloat 0.97);
      ("feature_names", PyList (PyStr <$> preprocess.feature_names)) ].

(** The model [load_model] builds from the three artifacts. *)
Definition described_model (p : Q) : FraudDetectionModel :=
  {| model := Some (constant_classifier p);
     scaler := Some (affine_scaler 0 1);
     metrics := Some trained_metrics;
     preprocessor := {| dp_scaler := Some (affine_scaler 0 1) |} |}.

(** A disk with the three artifacts under "/srv/model", and an empty one. *)
Definition artifacts (p : Q) : startup.disk :=
  {| startup.classifier_file := λ path,
       if bool_decide (path = "/srv/model/model.pkl")
       then Some (Ok (constant_classifier p)) else None;
     startup.scaler_file := λ path,
       if bool_decide (path = "/srv/model/scaler.pkl")
       then Some (Ok (affine_scaler 0 1)) else None;
     startup.metrics_file := λ path,
       if bool_decide (path = "/srv/model/metrics.pkl")
       then Some (Ok trained_metrics) else None |}.
Definition no_files : startup.disk :=
  startup.Disk (λ _, None) (λ _, None) (λ _, None).

#[export] Instance layout : startup.Layout :=
  {| startup.inference_default_dir := "/srv/app/../../model";
     startup.api_model_dir := "/srv/model" |}.

(** A process that has loaded nothing yet. *)
Definition fresh (files : startup.disk) : startup.process :=
  startup.Process files None None [].

(** An environment without the Gemini library. *)
#[export] Instance no_gemini : explain.Environment :=
  {| explain.genai_installed := false;
     explain.api_key_set := false;
     explain.GenerativeModel :=
       Raise (RuntimeError (MsgExternal "google.generativeai")) |}.

(** An /explain request whose body is the transaction itself. *)
Definition flat_request : explain.Request :=
  {| explain.is_json := true; explain.payload := 0%nat;
     explain.transaction_field := None |}.

End fixtures.

(** * Properties *)

(** ** Numbers *)
Lemma Qltb_true (x y : Q) : Qltb x y = true ↔ (x < y)%Q.
Proof.
  unfold Qltb. rewrite negb_true_iff. split.
  - intros Hb. apply Qnot_le_lt. intros Hle.
    apply Qle_bool_iff in Hle. congruence.
  - intros Hlt. destruct (Qle_bool y x) eqn:E; [|done].
    apply Qle_bool_iff in E. exfalso. exact (Qlt_not_le _ _ Hlt E).
Qed.

Lemma Qltb_false (x y : Q) : Qltb x y = false ↔ (y <= x)%Q.
Proof.
  unfold Qltb. rewrite negb_false_iff. apply Qle_bool_iff.
Qed.







Lemma Qgeb_true (p t : Q) : Qgeb p t = true ↔ (t <= p)%Q.
Proof. apply Qle_bool_iff. Qed.

Ltac step :=
  unfold mbind, M_bind, mret, M_ret, result_bind, result_ret,
    deref, emit, lift, gets, raise, store, try_except, extend in *;
  cbn [negb fst snd heap trace fraud_model] in *.

Section validation.
Context `{FloatGrammar}.
Import preprocess.

Lemma validate_eq (l : loc) (w : world) :
  validate_transaction_data l w
  = (validation_of (heap w l), extend w (validation_events (heap w l))).
Proof.
  unfold validation_of, validation_events, validate_transaction_data. step.
  repeat case_match; simplify_eq; cbn [fst snd trace app]; try done.
  all: by rewrite <- app_assoc.
Qed.

Lemma getitem_float_Ok (d : dict) (f : string) (x : Q) :
  getitem d f ≫= float = Ok x ↔ ∃ v, d !! f = Some v ∧ float v = Ok x.
Proof.
  unfold getitem. destruct (d !! f) as [v|]; cbn; split.
  - eauto.
  - by intros (v' & [= <-] & Hv).
  - discriminate.
  - by intros (v' & [=] & _).
Qed.

Lemma float_raises (v : pyval) (e : exn) :
  float v = Raise e → is_value_or_type_error e = true.
Proof.
  destruct v; cbn; try discriminate; try (by intros [= <-]).
  destruct (str_to_float s); [discriminate | by intros [= <-]].
Qed.


Lemma missing_nil (d : dict) (fs : list string) :
  missing d fs = [] ↔ Forall (present d) fs.
Proof.
  unfold missing, present. induction fs as [|f fs IH]; [done|].
  rewrite filter_cons, Forall_cons. destruct (decide (d !! f = None)) as [E|E].
  - split; [discriminate|]. intros [[v Hv] _]. congruence.
  - rewrite IH. split; [|tauto]. intros Hfs. split; [|done].
    destruct (d !! f); [eauto | done].
Qed.

(** The type loop stops at the first field that is not a number. *)
Lemma first_not_number_spec (d : dict) (fs : list string) :
  Forall (present d) fs →
  (first_not_number d fs = Ok None ∧ Forall (numeric d) fs)
  ∨ (∃ pre f post, fs = (pre ++ f :: post)%list ∧ Forall (numeric d) pre
       ∧ ¬ numeric d f ∧ first_not_number d fs = Ok (Some f)).
Proof.
  induction 1 as [|f fs [v Hv] _ IH]; [by left|].
  cbn [first_not_number]. unfold getitem. rewrite Hv. cbn.
  destruct (float v) as [x|e] eqn:Ev.
  - destruct IH as [[-> Hall]|(pre & g & post & -> & Hpre & Hg & ->)].
    + left. split; [done|]. constructor; [by exists v, x | done].
    + right. exists (f :: pre), g, post. repeat split; try done.
      constructor; [by exists v, x | done].
  - right. exists [], f, fs. rewrite (float_raises _ _ Ev).
    repeat split; try done.
    intros (v' & x & Hv' & Hx). congruence.
Qed.


Lemma validation_of_unfold (d : dict) :
  validation_of d =
  match missing d required_features with
  | [] =>
      match first_not_number d required_features with
      | Ok (Some f) => Ok (false, MsgNotNumber f)
      | Ok None =>
          match getitem d "Amount" ≫= float with
          | Ok a => if Qltb a 0 then Ok (false, MsgNegativeAmount)
                    else Ok (true, MsgOK)
          | Raise e => Raise e
          end
      | Raise e => Raise e
      end
  | ms => Ok (false, MsgMissing ms)
  end.
Proof.
  unfold validation_of, validate_transaction_data. step.
  repeat case_match; simplify_eq; done.
Qed.

Lemma validation_events_unfold (d : dict) :
  validation_events d =
  EvValidate ::
  match validation_of d, getitem d "Amount" ≫= float with
  | Ok (true, _), Ok a =>
      if Qltb 100000 a then [EvLog Warning (MsgLargeAmount a)] else []
  | _, _ => []
  end.
Proof.
  rewrite validation_of_unfold.
  unfold validation_events, validate_transaction_data. step.
  repeat case_match; simplify_eq; done.
Qed.

Lemma amount_required : "Amount" ∈ required_features.
Proof. by apply (bool_decide_unpack _). Qed.

Lemma time_not_required : "Time" ∉ required_features.
Proof. by apply (bool_decide_unpack _). Qed.

(** Validation always returns: it never raises. *)
Lemma validation_total (d : dict) : ∃ b m, validation_of d = Ok (b, m).
Proof.
  rewrite validation_of_unfold.
  destruct (missing d required_features) as [|f ms] eqn:Em; [|eauto].
  apply missing_nil in Em.
  destruct (first_not_number_spec d _ Em)
    as [[-> Hall]|(pre & f & post & _ & _ & _ & ->)]; [|eauto].
  rewrite Forall_forall in Hall.
  destruct (Hall _ amount_required) as (v & a & Hv & Ha).
  unfold getitem. rewrite Hv. cbn. unfold result_bind. rewrite Ha.
  destruct (Qltb a 0); eauto.
Qed.

(** A record whose required fields are all present and numeric is judged
    on its amount alone. *)
Lemma validation_numeric (d : dict) (a : Q) :
  Forall (numeric d) required_features →
  getitem d "Amount" ≫= float = Ok a →
  validation_of d
  = if Qltb a 0 then Ok (false, MsgNegativeAmount) else Ok (true, MsgOK).
Proof.
  intros Hall Ha. rewrite validation_of_unfold.
  assert (Hp : Forall (present d) required_features).
  { eapply Forall_impl; [exact Hall|]. intros f (v & x & Hv & _).
    by exists v. }
  rewrite (proj2 (missing_nil _ _) Hp).
  destruct (first_not_number_spec d _ Hp)
    as [[-> _]|(pre & f & post & Heq & _ & Hf & _)].
  - by rewrite Ha.
  - exfalso. apply Hf. rewrite Forall_forall in Hall. apply Hall.
    rewrite Heq. set_solver.
Qed.

Lemma validation_accepts_inv (d : dict) (m : msg) :
  validation_of d = Ok (true, m) →
  m = MsgOK ∧ Forall (numeric d) required_features
  ∧ ∃ a, getitem d "Amount" ≫= float = Ok a ∧ (0 <= a)%Q.
Proof.
  rewrite validation_of_unfold.
  destruct (missing d required_features) as [|f ms] eqn:Em; [|discriminate].
  apply missing_nil in Em.
  destruct (first_not_number_spec d _ Em)
    as [[-> Hall]|(pre & f & post & _ & _ & _ & ->)]; [|discriminate].
  destruct (getitem d "Amount" ≫= float) as [a|] eqn:Ea; [|discriminate].
  destruct (Qltb a 0) eqn:Elt; [discriminate|].
  intros [= <-]. apply Qltb_false in Elt. eauto.
Qed.

(** Validation reads the required fields only. *)
Lemma missing_agree (d1 d2 : dict) (fs : list string) :
  (∀ f, f ∈ fs → d1 !! f = d2 !! f) → missing d1 fs = missing d2 fs.
Proof.
  unfold missing. induction fs as [|f fs IH]; intros Hag; [done|].
  rewrite !filter_cons, IH by (intros; apply Hag; set_solver).
  rewrite (Hag f) by set_solver. done.
Qed.

Lemma first_not_number_agree (d1 d2 : dict) (fs : list string) :
  (∀ f, f ∈ fs → d1 !! f = d2 !! f) →
  first_not_number d1 fs = first_not_number d2 fs.
Proof.
  induction fs as [|f fs IH]; intros Hag; [done|].
  cbn [first_not_number]. unfold getitem.
  rewrite IH by (intros; apply Hag; set_solver).
  rewrite (Hag f) by set_solver. done.
Qed.

Lemma validation_agree (d1 d2 : dict) :
  (∀ f, f ∈ required_features → d1 !! f = d2 !! f) →
  validation_of d1 = validation_of d2
  ∧ validation_events d1 = validation_events d2.
Proof.
  intros Hag.
  assert (E : validation_of d1 = validation_of d2).
  { rewrite !validation_of_unfold, (missing_agree d1 d2),
      (first_not_number_agree d1 d2) by done.
    unfold getitem. by rewrite (Hag _ amount_required). }
  split; [done|]. rewrite !validation_events_unfold, E.
  unfold getitem. by rewrite (Hag _ amount_required).
Qed.

End validation.

Section validation_claims.
Context `{FloatGrammar}.
Import preprocess.



End validation_claims.

Section assembly.
Context `{FloatGrammar}.
Import preprocess.

Lemma feature_names_order :
  feature_names
  = ("Time" :: ((λ i, "V" +:+ pretty i) <$> seq 1 28) ++ ["Amount"])%list
  ∧ required_features
    = (((λ i, "V" +:+ pretty i) <$> seq 1 28) ++ ["Amount"])%list.
Proof. split; vm_compute; reflexivity. Qed.

Lemma collect_cons (d : dict) (n : string) (names : list string) :
  collect d (n :: names) =
  match getitem d n ≫= float with
  | Ok x =>
      match collect d names with
      | Ok xs => Ok (x :: xs)
      | Raise e => Raise e
      end
  | Raise e => Raise e
  end.
Proof. reflexivity. Qed.

Lemma collect_Forall2 (d : dict) (names : list string) (xs : list Q) :
  collect d names = Ok xs
  ↔ Forall2 (λ n x, getitem d n ≫= float = Ok x) names xs.
Proof.
  revert xs. induction names as [|n names IH]; intros xs.
  - split; [intros [= <-]; constructor | by inversion 1].
  - rewrite collect_cons. split.
    + destruct (getitem d n ≫= float) as [x|e] eqn:Ex; [|discriminate].
      destruct (collect d names) as [ys|e] eqn:Ey; [|discriminate].
      intros [= <-]. constructor; [done|by apply IH].
    + inversion 1 as [|? y ? ys Hx Hys]; subst.
      apply IH in Hys. by rewrite Hx, Hys.
Qed.

Lemma collect_numeric (d : dict) (names : list string) :
  Forall (numeric d) names → ∃ xs, collect d names = Ok xs.
Proof.
  induction 1 as [|n names (v & x & Hv & Hx) _ [xs IH]]; [by exists []|].
  exists (x :: xs). rewrite collect_cons, IH.
  by rewrite (proj2 (getitem_float_Ok d n x)) by eauto.
Qed.

(** What [prepare_features] does, step by step. *)
Lemma prepare_features_eq (self : DataPreprocessor) (l : loc) (w : world) :
  prepare_features self l w =
  let d := heap w l in
  let w1 := extend w (validation_events d) in
  match validation_of d with
  | Ok (true, _) =>
      let w2 :=
        if bool_decide (d !! "Time" = None)
        then World (fraud_model w) (<[l := with_default_time d]> (heap w))
               (trace w1)
        else w1 in
      match collect (with_default_time d) feature_names with
      | Ok features =>
          match dp_scaler self with
          | Some sc => (sc features, extend w2 [EvTransform features])
          | None => (Raise (ValueError MsgScalerNotLoaded), w2)
          end
      | Raise e => (Raise e, w2)
      end
  | Ok (false, m) => (Raise (ValueError (MsgValidation m)), w1)
  | Raise e => (Raise e, w1)
  end.
Proof.
  unfold prepare_features, with_default_time.
  unfold mbind at 1, M_bind at 1. rewrite validate_eq.
  destruct (validation_of (heap w l)) as [[[] m]|e]; [|done..].
  step. destruct (bool_decide (heap w l !! "Time" = None)) eqn:Et.
  - cbn [heap]. rewrite fn_lookup_insert.
    destruct (collect _ feature_names); [|done].
    by destruct (dp_scaler self).
  - destruct (collect _ feature_names); [|done].
    by destruct (dp_scaler self).
Qed.

Lemma numeric_with_default_time (d : dict) (f : string) :
  f ≠ "Time" → numeric d f → numeric (with_default_time d) f.
Proof.
  intros Hne (v & x & Hv & Hx). exists v, x. split; [|done].
  unfold with_default_time. case_bool_decide; [|done].
  by rewrite lookup_insert_ne.
Qed.

(** C1. For a TransactionRecord that passes validation, the features
    [prepare_features] assembles are 30 numbers in this order: "Time"
    (0 when the key is absent), then V1 to V28 by ascending index, then
    "Amount"; this list is what the scaler is applied to. *)
Theorem prepare_features_fixed_order
    (self : DataPreprocessor) (l : loc) (w : world) :
  let d := heap w l in
  TransactionRecord d →
  fst (validate_transaction_data l w) = Ok (true, MsgOK) →
  ∃ time vs amount w',
    let features := (time :: vs ++ [amount])%list in
    length features = 30%nat
    ∧ length vs = 28%nat
    ∧ (d !! "Time" = None → time = 0%Q)
    ∧ (∀ v, d !! "Time" = Some v → float v = Ok time)
    ∧ (∀ i x, vs !! i = Some x →
         getitem d ("V" +:+ pretty (S i)) ≫= float = Ok x)
    ∧ getitem d "Amount" ≫= float = Ok amount
    ∧ prepare_features self l w
      = (match dp_scaler self with
         | Some sc => sc features
         | None => Raise (ValueError MsgScalerNotLoaded)
         end, w').
Proof.
  intros d Hrec Hvalid. rewrite validate_eq in Hvalid. cbn [fst] in Hvalid.
  fold d in Hvalid.
  destruct (validation_accepts_inv _ _ Hvalid) as (_ & Hreq & _).
  assert (Htime : numeric (with_default_time d) "Time").
  { unfold with_default_time. case_bool_decide as Ht.
    - exists (PyInt 0), 0%Q. by rewrite lookup_insert_eq.
    - destruct (d !! "Time") as [v|] eqn:Ev; [|done].
      destruct (Hrec _ _ Ev) as [x Hx]. by exists v, x. }
  assert (Hall : Forall (numeric (with_default_time d)) feature_names).
  { change feature_names with ("Time" :: required_features).
    constructor; [done|]. rewrite Forall_forall in Hreq |- *.
    intros f Hf. apply numeric_with_default_time; [|by apply Hreq].
    intros ->. by apply time_not_required. }
  destruct (collect_numeric _ _ Hall) as [features Hcollect].
  pose proof Hcollect as Hshape. apply collect_Forall2 in Hshape.
  rewrite (proj1 feature_names_order) in Hshape.
  apply Forall2_cons_inv_l in Hshape as (time & rest & Ht & Hrest & ->).
  apply Forall2_app_inv_l in Hrest as (vs & last & Hvs & Hlast & ->).
  apply Forall2_cons_inv_l in Hlast as (amount & nil' & Ha & Hnil & ->).
  apply Forall2_nil_inv_l in Hnil as ->.
  assert (Hlen : length vs = 28%nat).
  { apply Forall2_length in Hvs. by rewrite <- Hvs, length_fmap, length_seq. }
  assert (Hget : ∀ f x, f ≠ "Time" →
            getitem (with_default_time d) f ≫= float = Ok x →
            getitem d f ≫= float = Ok x).
  { intros f x Hne. unfold with_default_time, getitem.
    case_bool_decide; [|done]. by rewrite lookup_insert_ne. }
  destruct (dp_scaler self) as [sc|] eqn:Esc;
    eexists time, vs, amount, _; cbn zeta.
  all: split; [by rewrite length_cons, length_app, Hlen|].
  all: split; [done|]; split; [|split; [|split; [|split]]].
  all: try (rewrite prepare_features_eq; cbn zeta; fold d;
            rewrite Hvalid, Hcollect, Esc; reflexivity).
  all: try (apply Hget; [discriminate|done]).
  all: try (intros Hnone; unfold with_default_time, getitem in Ht;
            rewrite bool_decide_eq_true_2, lookup_insert_eq in Ht by done;
            by injection Ht as <-).
  all: try (intros v Hv; unfold with_default_time, getitem in Ht;
            rewrite bool_decide_eq_false_2, Hv in Ht by congruence;
            exact Ht).
  all: intros i x Hi;
    destruct (Forall2_lookup_r _ _ _ _ _ Hvs Hi) as (n & Hn & Hx);
    rewrite list_lookup_fmap in Hn;
    destruct (seq 1 28 !! i) as [j|] eqn:Ej; [|done];
    apply lookup_seq in Ej as [-> _]; injection Hn as <-;
    (apply Hget; [|done]); intros Heq;
    apply (f_equal (λ s, String.get 0 s)) in Heq; done.
Qed.

End assembly.

Section scoring.
Context `{FloatGrammar}.
Import preprocess inference.

Lemma predict_fraud_probability_eq
    (self : FraudDetectionModel) (l : loc) (w : world) :
  predict_fraud_probability self l w =
  match model self with
  | None => (Raise (ValueError MsgModelNotLoaded), w)
  | Some clf =>
      match prepare_features (preprocessor self) l w with
      | (Ok features, w1) =>
          match clf features with
          | Ok p =>
              (Ok p, extend w1 [EvPredictProba features;
                                EvLog Info (MsgPrediction p)])
          | Raise e =>
              (Raise e, extend w1 [EvPredictProba features;
                                   EvLog Error (MsgPredictionError (str e))])
          end
      | (Raise e, w1) =>
          (Raise e, extend w1 [EvLog Error (MsgPredictionError (str e))])
      end
  end.
Proof.
  unfold predict_fraud_probability. destruct (model self) as [clf|]; [|done].
  step. destruct (prepare_features _ l w) as [[features|e] w1]; [|done].
  cbn [trace]. destruct (clf features) as [p|e]; cbn [trace];
    by rewrite <- app_assoc.
Qed.

Lemma predict_with_details_eq
    (self : FraudDetectionModel) (l : loc) (t : Q) (w : world) :
  predict_with_details self l t w =
  let d := heap w l in
  let w1 := extend w (validation_events d) in
  match validation_of d with
  | Ok (true, _) =>
      match predict_fraud_probability self l w1 with
      | (Ok p, w2) =>
          (Ok (scored self p t),
           extend w2 [EvLog Info (MsgDetails (round p 4) (Qgeb p t))])
      | (Raise e, w2) =>
          (Ok (error_payload (str e)),
           extend w2 [EvLog Error (MsgDetailsError (str e))])
      end
  | Ok (false, m) => (Ok (error_payload m), w1)
  | Raise e =>
      (Ok (error_payload (str e)),
       extend w1 [EvLog Error (MsgDetailsError (str e))])
  end.
Proof.
  unfold predict_with_details, try_except.
  unfold mbind at 1, M_bind at 1. rewrite validate_eq.
  destruct (validation_of (heap w l)) as [[[] m]|e]; cbn [negb]; [|done..].
  unfold mbind, M_bind.
  destruct (predict_fraud_probability self l _) as [[p|e] w2]; done.
Qed.

End scoring.

Section frames.
Context `{FloatGrammar}.
Import preprocess inference.

Lemma prepare_features_fst (self : DataPreprocessor) (l : loc) (w : world) :
  fst (prepare_features self l w) = features_of self (heap w l).
Proof.
  unfold features_of. rewrite !prepare_features_eq. cbn [heap scratch].
  cbn zeta. destruct (validation_of (heap w l)) as [[[] m]|e]; [|done..].
  destruct (collect _ feature_names); [|done].
  by destruct (dp_scaler self).
Qed.

Lemma prepare_features_snd (self : DataPreprocessor) (l : loc) (w : world) :
  ∃ evs,
    snd (prepare_features self l w)
    = World (fraud_model w)
        (match validation_of (heap w l) with
         | Ok (true, _) =>
             if bool_decide (heap w l !! "Time" = None)
             then <[l := <["Time" := PyInt 0]> (heap w l)]> (heap w)
             else heap w
         | _ => heap w
         end)
        (trace w ++ evs).
Proof.
  rewrite prepare_features_eq. cbn zeta. unfold with_default_time.
  destruct (validation_of (heap w l)) as [[[] m]|e]; [|by eexists..].
  destruct (bool_decide (heap w l !! "Time" = None));
    destruct (collect _ feature_names); try destruct (dp_scaler self);
    unfold extend; cbn [fst snd heap trace fraud_model];
    rewrite <- ?app_assoc; by eexists.
Qed.

Lemma predict_fraud_probability_fst
    (self : FraudDetectionModel) (l : loc) (w : world) :
  fst (predict_fraud_probability self l w) = probability_of self (heap w l).
Proof.
  unfold probability_of. rewrite !predict_fraud_probability_eq.
  destruct (model self) as [clf|]; [|done].
  pose proof (prepare_features_fst (preprocessor self) l w) as E1.
  pose proof (prepare_features_fst (preprocessor self) 0%nat
                (scratch (heap w l))) as E2.
  cbn [heap scratch] in E2. rewrite <- E2 in E1. clear E2.
  destruct (prepare_features _ l w) as [[fs|e] w1],
    (prepare_features _ 0%nat _) as [[fs'|e'] w1'];
    cbn [fst] in E1; simplify_eq; [|done].
  by destruct (clf fs').
Qed.

Lemma predict_fraud_probability_snd
    (self : FraudDetectionModel) (l : loc) (w : world) :
  ∃ evs,
    snd (predict_fraud_probability self l w)
    = World (fraud_model w) (heap_after self l (heap w)) (trace w ++ evs).
Proof.
  rewrite predict_fraud_probability_eq. unfold heap_after, adds_time.
  destruct (model self) as [clf|].
  - destruct (prepare_features_snd (preprocessor self) l w) as [evs E].
    assert (Eh : (match validation_of (heap w l) with
                  | Ok (true, _) =>
                      if bool_decide (heap w l !! "Time" = None)
                      then <[l := <["Time" := PyInt 0]> (heap w l)]> (heap w)
                      else heap w
                  | _ => heap w
                  end)
                 = (if match validation_of (heap w l) with
                       | Ok (true, _) =>
                           bool_decide (heap w l !! "Time" = None)
                       | _ => false
                       end
                    then <[l := <["Time" := PyInt 0]> (heap w l)]> (heap w)
                    else heap w)).
    { by destruct (validation_of (heap w l)) as [[[] m]|e]. }
    rewrite Eh in E. clear Eh.
    destruct (prepare_features _ l w) as [[fs|e] w1]; cbn [snd] in E;
      subst w1; try destruct (clf fs); unfold extend;
      cbn [fst snd heap trace fraud_model]; rewrite <- ?app_assoc;
      by eexists.
  - exists []. rewrite app_nil_r. by destruct w.
Qed.

Lemma predict_with_details_fst
    (self : FraudDetectionModel) (l : loc) (t : Q) (w : world) :
  fst (predict_with_details self l t w) = details_of self (heap w l) t.
Proof.
  unfold details_of. rewrite !predict_with_details_eq. cbn [heap scratch].
  cbn zeta. destruct (validation_of (heap w l)) as [[[] m]|e]; [|done..].
  pose proof (predict_fraud_probability_fst self l
                (extend w (validation_events (heap w l)))) as E1.
  pose proof (predict_fraud_probability_fst self 0%nat
                (extend (scratch (heap w l))
                   (validation_events (heap w l)))) as E2.
  cbn [heap scratch extend] in E1, E2. rewrite <- E2 in E1. clear E2.
  unfold extend, scratch in *. cbn [fraud_model heap trace] in *.
  destruct (predict_fraud_probability self l _) as [[p|e] w2],
    (predict_fraud_probability self 0%nat _) as [[p'|e'] w2'];
    cbn [fst] in E1; simplify_eq; done.
Qed.

Lemma predict_with_details_snd
    (self : FraudDetectionModel) (l : loc) (t : Q) (w : world) :
  ∃ evs,
    snd (predict_with_details self l t w)
    = World (fraud_model w) (heap_after self l (heap w)) (trace w ++ evs).
Proof.
  rewrite predict_with_details_eq. cbn zeta.
  destruct (validation_of (heap w l)) as [[[] m]|e] eqn:Ev.
  - destruct (predict_fraud_probability_snd self l
                (extend w (validation_events (heap w l)))) as [evs E].
    cbn [extend fraud_model heap trace] in E.
    destruct (predict_fraud_probability self l _) as [[p|e] w2];
      cbn [snd] in E; subst w2; unfold extend;
      cbn [fst snd heap trace fraud_model]; rewrite <- !app_assoc;
      by eexists.
  - unfold heap_after, adds_time. rewrite Ev.
    destruct (model self); by eexists.
  - unfold heap_after, adds_time. rewrite Ev. unfold extend.
    cbn [fst snd heap trace fraud_model]. rewrite <- app_assoc.
    destruct (model self); by eexists.
Qed.

End frames.

Section risk.
Context `{FloatGrammar}.
Import preprocess inference.

Lemma risk_of_bands (p : Q) :
  (risk_of p = VeryLow ↔ (p < 0.1)%Q)
  ∧ (risk_of p = Low ↔ (0.1 <= p)%Q ∧ (p < 0.3)%Q)
  ∧ (risk_of p = Medium ↔ (0.3 <= p)%Q ∧ (p < 0.7)%Q)
  ∧ (risk_of p = High ↔ (0.7 <= p)%Q ∧ (p < 0.9)%Q)
  ∧ (risk_of p = VeryHigh ↔ (0.9 <= p)%Q).
Proof.
  unfold risk_of.
  destruct (Qltb p 0.1) eqn:E1; [apply Qltb_true in E1|apply Qltb_false in E1];
  (destruct (Qltb p 0.3) eqn:E2;
     [apply Qltb_true in E2|apply Qltb_false in E2]);
  (destruct (Qltb p 0.7) eqn:E3;
     [apply Qltb_true in E3|apply Qltb_false in E3]);
  (destruct (Qltb p 0.9) eqn:E4;
     [apply Qltb_true in E4|apply Qltb_false in E4]);
  repeat split; try discriminate; try done; try lra;
  try (intros; exfalso; lra).
Qed.

Lemma risk_of_monotone (p q : Q) :
  (p <= q)%Q → (tier_rank (risk_of p) ≤ tier_rank (risk_of q))%nat.
Proof.
  intros Hpq. unfold risk_of.
  destruct (Qltb p 0.1) eqn:E1; [apply Qltb_true in E1|apply Qltb_false in E1];
  (destruct (Qltb p 0.3) eqn:E2;
     [apply Qltb_true in E2|apply Qltb_false in E2]);
  (destruct (Qltb p 0.7) eqn:E3;
     [apply Qltb_true in E3|apply Qltb_false in E3]);
  (destruct (Qltb p 0.9) eqn:E4;
     [apply Qltb_true in E4|apply Qltb_false in E4]);
  (destruct (Qltb q 0.1) eqn:F1; [apply Qltb_true in F1|apply Qltb_false in F1]);
  (destruct (Qltb q 0.3) eqn:F2;
     [apply Qltb_true in F2|apply Qltb_false in F2]);
  (destruct (Qltb q 0.7) eqn:F3;
     [apply Qltb_true in F3|apply Qltb_false in F3]);
  (destruct (Qltb q 0.9) eqn:F4;
     [apply Qltb_true in F4|apply Qltb_false in F4]);
  cbn [tier_rank]; try lia; exfalso; lra.
Qed.

End risk.

Section details.
Context `{FloatGrammar}.
Import preprocess inference.

Lemma features_of_eq (self : DataPreprocessor) (d : dict) :
  features_of self d =
  match validation_of d with
  | Ok (true, _) =>
      match collect (with_default_time d) feature_names with
      | Ok features =>
          match dp_scaler self with
          | Some sc => sc features
          | None => Raise (ValueError MsgScalerNotLoaded)
          end
      | Raise e => Raise e
      end
  | Ok (false, m) => Raise (ValueError (MsgValidation m))
  | Raise e => Raise e
  end.
Proof.
  unfold features_of. rewrite prepare_features_eq. cbn [heap scratch].
  cbn zeta. destruct (validation_of d) as [[[] m]|e]; [|done..].
  destruct (collect _ feature_names); [|done].
  by destruct (dp_scaler self).
Qed.

Lemma probability_of_eq (self : FraudDetectionModel) (d : dict) :
  probability_of self d =
  match model self with
  | None => Raise (ValueError MsgModelNotLoaded)
  | Some clf =>
      match features_of (preprocessor self) d with
      | Ok features => clf features
      | Raise e => Raise e
      end
  end.
Proof.
  unfold probability_of. rewrite predict_fraud_probability_eq.
  destruct (model self) as [clf|]; [|done].
  pose proof (prepare_features_fst (preprocessor self) 0%nat (scratch d))
    as E.
  cbn [heap scratch] in E. rewrite <- E.
  destruct (prepare_features _ 0%nat _) as [[fs|e] w1]; [|done].
  cbn [fst]. by destruct (clf fs).
Qed.

Lemma details_of_eq (self : FraudDetectionModel) (d : dict) (t : Q) :
  details_of self d t =
  match validation_of d with
  | Ok (true, _) =>
      match probability_of self d with
      | Ok p => Ok (scored self p t)
      | Raise e => Ok (error_payload (str e))
      end
  | Ok (false, m) => Ok (error_payload m)
  | Raise e => Ok (error_payload (str e))
  end.
Proof.
  unfold details_of. rewrite predict_with_details_eq. cbn [heap scratch].
  cbn zeta. destruct (validation_of d) as [[[] m]|e]; [|done..].
  pose proof (predict_fraud_probability_fst self 0%nat
                (extend (scratch d) (validation_events d))) as E.
  cbn [heap scratch extend] in E. rewrite <- E.
  by destruct (predict_fraud_probability self 0%nat _) as [[p|e] w2].
Qed.

(** A probability is only ever computed for a record that validates. *)
Lemma probability_of_valid (self : FraudDetectionModel) (d : dict) (p : Q) :
  probability_of self d = Ok p → validation_of d = Ok (true, MsgOK).
Proof.
  rewrite probability_of_eq, features_of_eq.
  destruct (model self); [|discriminate].
  destruct (validation_of d) as [[[] m]|e] eqn:Ev; try discriminate.
  by destruct (validation_accepts_inv _ _ Ev) as (-> & _).
Qed.

Lemma details_of_scored (self : FraudDetectionModel) (d : dict) (p t : Q) :
  probability_of self d = Ok p → details_of self d t = Ok (scored self p t).
Proof.
  intros Hp. rewrite details_of_eq, (probability_of_valid _ _ _ Hp).
  by rewrite Hp.
Qed.

(** C8. Whenever a probability [p] is computed for a record, the decision
    reported against a threshold [t] is [p >= t]: it is true exactly when
    [t <= p], so a probability equal to the threshold is fraud. *)
Theorem is_fraud_iff_probability_reaches_threshold
    (self : FraudDetectionModel) (l : loc) (t : Q) (w : world) (p : Q) :
  fst (predict_fraud_probability self l w) = Ok p →
  (∃ r, fst (predict_with_details self l t w) = Ok r
        ∧ is_fraud r = Some (Qgeb p t)
        ∧ (is_fraud r = Some true ↔ (t <= p)%Q))
  ∧ (∃ b, fst (predict_fraud_class self l t w) = Ok b
          ∧ (b = true ↔ (t <= p)%Q)).
Proof.
  intros Hp. split.
  - rewrite predict_fraud_probability_fst in Hp.
    rewrite predict_with_details_fst, (details_of_scored _ _ _ _ Hp).
    eexists. split; [done|]. cbn [is_fraud scored]. split; [done|].
    rewrite <- Qgeb_true. split; [by intros [= ->]|by intros ->].
  - unfold predict_fraud_class. step.
    destruct (predict_fraud_probability self l w) as [[p'|e] w1];
      cbn [fst] in *; simplify_eq.
    eexists. split; [done|]. apply Qgeb_true.
Qed.

(** C2. For a probability [p] in [0, 1] the reported risk tier is very
    low on [0, 0.1), low on [0.1, 0.3), medium on [0.3, 0.7), high on
    [0.7, 0.9) and very high on [0.9, 1]; 0.1, 0.3, 0.7 and 0.9 belong to
    the higher tier; the tier never decreases when [p] grows; and it is
    the same for every threshold. *)
Theorem risk_level_bands
    (self : FraudDetectionModel) (l : loc) (w : world) (p : Q) :
  (0 <= p)%Q → (p <= 1)%Q →
  fst (predict_fraud_probability self l w) = Ok p →
  (∀ t, ∃ r tier,
      fst (predict_with_details self l t w) = Ok r
      ∧ risk_level r = Some tier
      ∧ tier = risk_of p
      ∧ (tier = VeryLow ↔ (0 <= p)%Q ∧ (p < 0.1)%Q)
      ∧ (tier = Low ↔ (0.1 <= p)%Q ∧ (p < 0.3)%Q)
      ∧ (tier = Medium ↔ (0.3 <= p)%Q ∧ (p < 0.7)%Q)
      ∧ (tier = High ↔ (0.7 <= p)%Q ∧ (p < 0.9)%Q)
      ∧ (tier = VeryHigh ↔ (0.9 <= p)%Q ∧ (p <= 1)%Q))
  ∧ (∀ t1 t2 r1 r2,
      fst (predict_with_details self l t1 w) = Ok r1 →
      fst (predict_with_details self l t2 w) = Ok r2 →
      risk_level r1 = risk_level r2)
  ∧ (∀ q, (p <= q)%Q →
      (tier_rank (risk_of p) ≤ tier_rank (risk_of q))%nat)
  ∧ risk_of 0.1 = Low ∧ risk_of 0.3 = Medium
  ∧ risk_of 0.7 = High ∧ risk_of 0.9 = VeryHigh.
Proof.
  intros H0 H1 Hp. rewrite predict_fraud_probability_fst in Hp.
  split; [|split; [|split]].
  - intros t. exists (scored self p t), (risk_of p).
    rewrite predict_with_details_fst, (details_of_scored _ _ _ _ Hp).
    split; [done|]. split; [done|]. split; [done|].
    destruct (risk_of_bands p) as (B1 & B2 & B3 & B4 & B5).
    rewrite B1, B2, B3, B4, B5. tauto.
  - intros t1 t2 r1 r2.
    rewrite !predict_with_details_fst, !(details_of_scored _ _ _ _ Hp).
    by intros [= <-] [= <-].
  - intros q. apply risk_of_monotone.
  - done.
Qed.


End details.

Section batch.
Context `{FloatGrammar}.
Import preprocess inference.

Lemma details_of_total (self : FraudDetectionModel) (d : dict) (t : Q) :
  ∃ r, details_of self d t = Ok r
       ∧ ((∃ m, r = error_payload m)
          ∨ (∃ p, probability_of self d = Ok p ∧ r = scored self p t)).
Proof.
  rewrite details_of_eq.
  destruct (validation_of d) as [[[] m]|e]; [|eauto..].
  destruct (probability_of self d) as [p|e]; eauto 6.
Qed.

Lemma with_default_time_idem (d : dict) :
  d !! "Time" = None →
  with_default_time (<["Time" := PyInt 0]> d) = with_default_time d.
Proof.
  intros Hnone. unfold with_default_time.
  rewrite lookup_insert_eq, bool_decide_eq_false_2 by done.
  by rewrite bool_decide_eq_true_2.
Qed.

Lemma validation_of_default_time (d : dict) :
  validation_of (<["Time" := PyInt 0]> d) = validation_of d.
Proof.
  apply validation_agree. intros f Hf. apply lookup_insert_ne.
  intros <-. by apply time_not_required.
Qed.

(** A record that already holds the default "Time" scores as before. *)
Lemma details_of_default_time (self : FraudDetectionModel) (d : dict) (t : Q) :
  d !! "Time" = None →
  details_of self (<["Time" := PyInt 0]> d) t = details_of self d t.
Proof.
  intros Hnone.
  rewrite !details_of_eq, !probability_of_eq, !features_of_eq.
  by rewrite validation_of_default_time, with_default_time_idem.
Qed.

Lemma details_of_heap_after
    (self : FraudDetectionModel) (l0 l : loc) (h : loc → dict) (t : Q) :
  details_of self (heap_after self l0 h l) t = details_of self (h l) t.
Proof.
  unfold heap_after, adds_time.
  destruct (model self); [|done].
  destruct (validation_of (h l0)) as [[[] m]|e]; [|done..].
  case_bool_decide as Ht; [|done].
  destruct (decide (l0 = l)) as [<-|Hne].
  - rewrite fn_lookup_insert. by apply details_of_default_time.
  - by rewrite fn_lookup_insert_ne.
Qed.


End batch.

Section handlers.
Context `{FloatGrammar}.
Import preprocess inference api.


Lemma parse_threshold_accepted (v : pyval) (t : Q) :
  parse_threshold v = Ok (inl t)
  ↔ float v = Ok t ∧ (0 <= t)%Q ∧ (t <= 1)%Q.
Proof.
  unfold parse_threshold. destruct (float v) as [x|e] eqn:Ev.
  - destruct (Qle_bool 0 x) eqn:E0, (Qle_bool x 1) eqn:E1; cbn.
    + apply Qle_bool_iff in E0, E1. split.
      * by intros [= <-].
      * by intros ([= <-] & _).
    + split; [discriminate|]. intros ([= <-] & _ & H1).
      apply Qle_bool_iff in H1. congruence.
    + split; [discriminate|]. intros ([= <-] & H0 & _).
      apply Qle_bool_iff in H0. congruence.
    + split; [discriminate|]. intros ([= <-] & H0 & _).
      apply Qle_bool_iff in H0. congruence.
  - rewrite (float_raises _ _ Ev). split; [discriminate|].
    by intros ([=] & _).
Qed.


(** What /predict/batch answers once the request carries a list of
    transactions. *)
Lemma predict_batch_eq (req : BatchRequest) (w : world) (ts : list loc) :
  batch_transactions req = Some ts →
  predict_batch req w =
  match fraud_model w with
  | None => (Ok (ErrorBody MsgModelNotLoaded, 503), w)
  | Some fm =>
      if negb (batch_is_json req) then (Ok (ErrorBody MsgExpectJson, 400), w)
      else
        match parse_threshold
                (default (PyFloat 0.5) (batch_threshold req)) with
        | Ok (inr m) => (Ok (ErrorBody m, 400), w)
        | Ok (inl t) =>
            if (100 <? length ts)%nat
            then (Ok (ErrorBody MsgBatchTooLarge, 400), w)
            else
              match batch_predict fm ts t w with
              | (Ok results, w') =>
                  (Ok (BatchBody results (length ts) t, 200),
                   extend w' [EvLog Info (MsgBatchDone (length ts))])
              | (Raise e, w') =>
                  (Ok (ErrorBody (str e), 500),
                   extend w' [EvLog Error (MsgHandlerError (str e))])
              end
        | Raise e =>
            (Ok (ErrorBody (str e), 500),
             extend w [EvLog Error (MsgHandlerError (str e))])
        end
  end.
Proof.
  intros Hts. unfold predict_batch. step. rewrite Hts.
  destruct (fraud_model w) as [fm|] eqn:Efm; [|done].
  destruct (batch_is_json req); cbn [negb]; [|done].
  destruct (parse_threshold _) as [[t|m]|e]; [|done|by rewrite Efm].
  destruct (100 <? length ts)%nat; [done|].
  by destruct (batch_predict fm ts t w) as [[results|e] w'].
Qed.


End handlers.

Section predict_handler.
Context `{FloatGrammar}.
Import preprocess inference api.

Lemma predict_with_details_total
    (self : FraudDetectionModel) (l : loc) (t : Q) (w : world) :
  ∃ r w', predict_with_details self l t w = (Ok r, w').
Proof.
  pose proof (predict_with_details_fst self l t w) as E.
  destruct (details_of_total self (heap w l) t) as (r & Hr & _).
  rewrite Hr in E. destruct (predict_with_details self l t w) as [res w'].
  cbn [fst] in E. subst res. eauto.
Qed.

Lemma validate_and_predict_eq (l : loc) (t : Q) (w : world) :
  validate_and_predict l t w =
  let d := heap w l in
  let w1 := extend w (validation_events d) in
  match validation_of d with
  | Ok (true, _) =>
      match fraud_model w with
      | Some m =>
          match predict_with_details m l t w1 with
          | (Ok r, w2) => (Ok (set_valid true r), w2)
          | (Raise e, w2) => (Ok (set_valid false (error_payload (str e))), w2)
          end
      | None =>
          (Ok (set_valid false (error_payload (MsgExternal "model.pkl"))), w1)
      end
  | Ok (false, m) => (Ok (set_valid false (error_payload m)), w1)
  | Raise e => (Ok (set_valid false (error_payload (str e))), w1)
  end.
Proof.
  unfold validate_and_predict, try_except.
  unfold mbind at 1, M_bind at 1. rewrite validate_eq.
  destruct (validation_of (heap w l)) as [[[] m]|e]; cbn [negb]; [|done..].
  unfold inference.predict_fraud, get_model. step.
  destruct (fraud_model w) as [m'|]; [|done].
  by destruct (predict_with_details m' l t _) as [[r|e] w2].
Qed.

Lemma validate_and_predict_fst (l : loc) (t : Q) (w : world) :
  fst (validate_and_predict l t w) = response_of (fraud_model w) (heap w l) t.
Proof.
  unfold response_of. rewrite !validate_and_predict_eq.
  cbn [heap fraud_model]. cbn zeta.
  destruct (validation_of (heap w l)) as [[[] m]|e]; [|done..].
  destruct (fraud_model w) as [fm|]; [|done].
  pose proof (predict_with_details_fst fm l t
                (extend w (validation_events (heap w l)))) as E1.
  pose proof (predict_with_details_fst fm 0%nat t
                (extend (World (Some fm) (λ _, heap w l) [])
                   (validation_events (heap w l)))) as E2.
  cbn [heap extend] in E1, E2. rewrite <- E2 in E1. clear E2.
  unfold extend in *. cbn [fraud_model heap trace] in *.
  destruct (predict_with_details fm l t _) as [[r|e] w2],
    (predict_with_details fm 0%nat t _) as [[r'|e'] w2'];
    cbn [fst] in E1; simplify_eq; done.
Qed.

Lemma validate_and_predict_snd (l : loc) (t : Q) (w : world) :
  ∃ evs h, snd (validate_and_predict l t w)
           = World (fraud_model w) h (trace w ++ evs).
Proof.
  rewrite validate_and_predict_eq. cbn zeta.
  destruct (validation_of (heap w l)) as [[[] m]|e]; [|by eexists _, _..].
  destruct (fraud_model w) as [fm|] eqn:Efm;
    [|unfold extend; rewrite Efm; by eexists _, _].
  destruct (predict_with_details_snd fm l t
              (extend w (validation_events (heap w l)))) as [evs E].
  destruct (predict_with_details fm l t _) as [[r|e] w2]; cbn [snd] in *;
    subst w2; cbn [extend fraud_model heap trace]; rewrite Efm, <- app_assoc;
    by eexists _, _.
Qed.

(** The handler of /predict, step by step. *)
Lemma predict_fraud_eq (req : Request) (w : world) :
  predict_fraud req w =
  let l := get_json req in
  let d := heap w l in
  match fraud_model w with
  | None => (Ok (ErrorBody MsgModelNotLoaded, 503), w)
  | Some _ =>
      if negb (is_json req) then (Ok (ErrorBody MsgExpectJson, 400), w)
      else if bool_decide (size d = 0%nat)
      then (Ok (ErrorBody MsgEmptyBody, 400), w)
      else
        let w0 := World (fraud_model w) (<[l := delete "threshold" d]> (heap w))
                    (trace w) in
        match parse_threshold (default (PyFloat 0.5) (d !! "threshold")) with
        | Ok (inr m) => (Ok (ErrorBody m, 400), w0)
        | Ok (inl t) =>
            match validate_and_predict l t w0 with
            | (Ok result, w1) =>
                if negb (default true (valid result))
                then (Ok (ErrorBody
                            (default MsgValidationError (error result)), 400),
                      w1)
                else (Ok (PredictBody (fraud_score result) (is_fraud result)
                            (confidence result) (risk_level result) t
                            (model_info result), 200),
                      extend w1 [EvLog Info (MsgPredictDone
                                   (fraud_score result) (is_fraud result))])
            | (Raise e, w1) =>
                (Ok (ErrorBody (MsgInternal (str e)), 500),
                 extend w1 [EvLog Error (MsgHandlerError (str e));
                            EvLog Error MsgTraceback])
            end
        | Raise e =>
            (Ok (ErrorBody (MsgInternal (str e)), 500),
             extend w0 [EvLog Error (MsgHandlerError (str e));
                        EvLog Error MsgTraceback])
        end
  end.
Proof.
  unfold predict_fraud, pop. step. cbn zeta.
  destruct (fraud_model w) as [fm|] eqn:Efm; [|done].
  destruct (is_json req); cbn [negb]; [|done].
  case_bool_decide; [done|]. rewrite Efm.
  destruct (parse_threshold _) as [[t|m]|e];
    [|done|cbn [trace]; by rewrite <- app_assoc].
  destruct (validate_and_predict _ t _) as [[result|e] w1];
    [|cbn [trace]; by rewrite <- app_assoc].
  by destruct (negb (default true (valid result))).
Qed.

End predict_handler.

Section threshold.
Context `{FloatGrammar}.
Import preprocess inference api.



End threshold.

Section effects.
Context `{FloatGrammar}.
Import preprocess inference api.

(** C9, as the code has it. A prediction call never changes the published
    model, a dict other than the record it was given, or a key of that
    record other than "Time", and it only appends to the trace; a "Time"
    that is present is left alone; and when the record passes validation,
    has no "Time" and the classifier is loaded, the call writes "Time": 0
    into the caller's record. *)
Theorem prediction_only_defaults_time
    (self : FraudDetectionModel) (l : loc) (t : Q) (w w' : world) :
  w' = snd (predict_with_details self l t w)
  ∨ w' = snd (predict_fraud_probability self l w)
  ∨ w' = snd (predict_fraud_class self l t w) →
  let d := heap w l in
  fraud_model w' = fraud_model w
  ∧ (∃ evs, trace w' = (trace w ++ evs)%list)
  ∧ (∀ l', l' ≠ l → heap w' l' = heap w l')
  ∧ (∀ k, k ≠ "Time" → heap w' l !! k = d !! k)
  ∧ (is_Some (d !! "Time") → heap w' l = d)
  ∧ (d !! "Time" = None →
     heap w' l = d ∨ heap w' l = <["Time" := PyInt 0]> d)
  ∧ (d !! "Time" = None → is_Some (model self) →
     fst (validate_transaction_data l w) = Ok (true, MsgOK) →
     heap w' l = <["Time" := PyInt 0]> d).
Proof.
  intros Hcall d.
  assert (∃ evs, w' = World (fraud_model w) (heap_after self l (heap w))
                        (trace w ++ evs)) as [evs ->].
  { destruct Hcall as [-> | [-> | ->]].
    - apply predict_with_details_snd.
    - apply predict_fraud_probability_snd.
    - destruct (predict_fraud_probability_snd self l w) as [evs E].
      exists evs. rewrite <- E. unfold predict_fraud_class. step.
      by destruct (predict_fraud_probability self l w) as [[p|e] w1]. }
  cbn [fraud_model heap trace]. fold d.
  split; [done|]. split; [by exists evs|].
  unfold heap_after, adds_time. fold d. rewrite validate_eq. cbn [fst].
  fold d. split_and?.
  - intros l' Hne. case_match; [|done]. by rewrite fn_lookup_insert_ne.
  - intros k Hk. case_match; [|done].
    by rewrite fn_lookup_insert, lookup_insert_ne.
  - intros [v Hv]. destruct (model self); [|done].
    destruct (validation_of d) as [[[] m]|e]; [|done..].
    by rewrite bool_decide_eq_false_2 by congruence.
  - intros Hnone. case_match; [right|by left]. by rewrite fn_lookup_insert.
  - intros Hnone [clf ->] ->.
    by rewrite bool_decide_eq_true_2, fn_lookup_insert.
Qed.

Lemma feature_names_cons : feature_names = "Time" :: required_features.
Proof. reflexivity. Qed.

(** C10, as the code has it. Validation never reads "Time": a record
    whose 29 required fields are numeric and whose amount is not negative
    is valid whether "Time" is absent or present, and whatever it holds.
    When its "Time" does not convert to a number, validation still
    accepts it, [prepare_features] raises the conversion error, and
    [predict_with_details] returns an error payload with fraud_score,
    is_fraud and confidence all None, carrying that error when the
    classifier is loaded. *)
Theorem validation_ignores_time
    (self : FraudDetectionModel) (l : loc) (t : Q) (w : world) :
  let d := heap w l in
  Forall (numeric d) required_features →
  (∃ a, getitem d "Amount" ≫= float = Ok a ∧ (0 <= a)%Q) →
  (∀ (o : option pyval) (w1 : world),
      heap w1 l = partial_alter (λ _, o) "Time" d →
      fst (validate_transaction_data l w1) = Ok (true, MsgOK))
  ∧ (∀ v e, d !! "Time" = Some v → float v = Raise e →
       fst (validate_transaction_data l w) = Ok (true, MsgOK)
       ∧ fst (prepare_features (preprocessor self) l w) = Raise e
       ∧ str e = MsgFloat v
       ∧ ∃ r, fst (predict_with_details self l t w) = Ok r
              ∧ fraud_score r = None ∧ is_fraud r = None
              ∧ confidence r = None
              ∧ error r = Some (match model self with
                                | Some _ => str e
                                | None => MsgModelNotLoaded
                                end)).
Proof.
  intros d Hnum (a & Ha & Hpos).
  assert (Hvalid : validation_of d = Ok (true, MsgOK)).
  { rewrite (validation_numeric d a Hnum Ha).
    apply Qltb_false in Hpos. by rewrite Hpos. }
  split.
  - intros o w1 Hw1. rewrite validate_eq, Hw1. cbn [fst].
    rewrite <- Hvalid. apply validation_agree. intros f Hf.
    apply lookup_partial_alter_ne. intros <-. by apply time_not_required.
  - intros v e Hv He.
    assert (Hfeat : features_of (preprocessor self) d = Raise e).
    { rewrite features_of_eq, Hvalid. unfold with_default_time.
      rewrite bool_decide_eq_false_2 by congruence.
      rewrite feature_names_cons, collect_cons. unfold getitem.
      rewrite Hv. cbn. unfold result_bind. by rewrite He. }
    rewrite validate_eq, prepare_features_fst, predict_with_details_fst.
    cbn [fst]. fold d. split; [done|]. split; [done|]. split.
    { destruct v; cbn in He; try discriminate; try (by injection He as <-).
      destruct (str_to_float s); [discriminate|by injection He as <-]. }
    rewrite details_of_eq, Hvalid, probability_of_eq, Hfeat.
    destruct (model self); by eexists.
Qed.

End effects.

(** ** The statements at concrete records *)
Section instances.
Import preprocess inference api examples.

Ltac numeric_fields :=
  repeat constructor;
  eexists _, _; (split; [vm_compute; reflexivity | reflexivity]).

Lemma sample_is_transaction_record :
  TransactionRecord create_sample_transaction.
Proof.
  intros k v Hkv. apply elem_of_list_to_map_2 in Hkv.
  repeat (apply elem_of_cons in Hkv as [[= -> ->]|Hkv]; [by eexists|]).
  by apply elem_of_nil in Hkv.
Defined.

Lemma prepare_features_fixed_order_witness :
  let w := world_of 0.5 create_sample_transaction in
  TransactionRecord (heap w 0%nat)
  ∧ fst (validate_transaction_data 0%nat w) = Ok (true, MsgOK)
  ∧ ∃ features w',
      length features = 30%nat
      ∧ prepare_features (preprocessor (loaded_model 0.5)) 0%nat w
        = (affine_scaler 0 1 features, w').
Proof.
  intros w.
  assert (Hrec : TransactionRecord (heap w 0%nat))
    by exact sample_is_transaction_record.
  assert (Hval : fst (validate_transaction_data 0%nat w) = Ok (true, MsgOK))
    by (vm_compute; reflexivity).
  split; [exact Hrec|]. split; [exact Hval|].
  destruct (prepare_features_fixed_order
              (preprocessor (loaded_model 0.5)) 0%nat w Hrec Hval)
    as (time & vs & amount & w' & Hlen & _ & _ & _ & _ & _ & Heq).
  exists (time :: vs ++ [amount])%list, w'. split; [exact Hlen|exact Heq].
Defined.

Lemma risk_level_bands_witness :
  let w := world_of 0.9 create_sample_transaction in
  (0 <= 0.9)%Q ∧ (0.9 <= 1)%Q
  ∧ fst (predict_fraud_probability (loaded_model 0.9) 0%nat w) = Ok 0.9%Q
  ∧ ∃ r, fst (predict_with_details (loaded_model 0.9) 0%nat 0.5 w) = Ok r
         ∧ risk_level r = Some VeryHigh.
Proof.
  intros w.
  assert (H0 : (0 <= 0.9)%Q) by (vm_compute; discriminate).
  assert (H1 : (0.9 <= 1)%Q) by (vm_compute; discriminate).
  assert (Hp : fst (predict_fraud_probability (loaded_model 0.9) 0%nat w)
               = Ok 0.9%Q) by (vm_compute; reflexivity).
  split; [exact H0|]. split; [exact H1|]. split; [exact Hp|].
  destruct (risk_level_bands (loaded_model 0.9) 0%nat w 0.9 H0 H1 Hp)
    as (Hbands & _).
  destruct (Hbands 0.5%Q) as (r & tier & Hr & Htier & Heq & _).
  exists r. split; [exact Hr|]. rewrite Htier, Heq. reflexivity.
Defined.


(** The batch of three, run: the second item fails alone and names its
    missing fields; the others are scored. *)
Example batch_of_three_results :
  ∃ w', predict_batch batch_of_three (batch_world 0.8)
        = (Ok (BatchBody
                 [ set_transaction_id 0 (scored (loaded_model 0.8) 0.8 0.5);
                   set_transaction_id 1
                     (error_payload (MsgMissing ["V7"; "V12"]));
                   set_transaction_id 2 (scored (loaded_model 0.8) 0.8 0.5) ]
                 3 0.5, 200%nat), w').
Proof. eexists. vm_compute. reflexivity. Qed.


(** /predict on the sample, which carries no threshold: the answer echoes
    0.5 and a probability of 0.5 is reported as fraud. *)
Example predict_without_threshold :
  ∃ w', predict_fraud {| is_json := true; get_json := 0%nat |}
          (world_of 0.5 create_sample_transaction)
        = (Ok (PredictBody (Some (round 0.5 4)) (Some true)
                 (Some (round 0.5 4)) (Some Medium) 0.5
                 (Some (PyStr "Unknown", PyStr "Unknown")), 200%nat), w').
Proof. eexists. vm_compute. reflexivity. Qed.


(** Amounts 0 and 100,000 pass with no warning; -1 is refused. *)
Example validate_amount_boundaries :
  let at_amount (a : Z) :=
    validate_transaction_data 0%nat
      (world_of 0.8 (<["Amount" := PyInt a]> create_sample_transaction)) in
  fst (at_amount 0%Z) = Ok (true, MsgOK)
  ∧ trace (snd (at_amount 0%Z)) = [EvValidate]
  ∧ fst (at_amount 100000%Z) = Ok (true, MsgOK)
  ∧ trace (snd (at_amount 100000%Z)) = [EvValidate]
  ∧ fst (at_amount (-1)%Z) = Ok (false, MsgNegativeAmount).
Proof. vm_compute. repeat split; reflexivity. Qed.




Lemma is_fraud_iff_probability_reaches_threshold_witness :
  let w := world_of 0.5 create_sample_transaction in
  fst (predict_fraud_probability (loaded_model 0.5) 0%nat w) = Ok 0.5%Q
  ∧ ∃ r, fst (predict_with_details (loaded_model 0.5) 0%nat 0.5 w) = Ok r
         ∧ is_fraud r = Some true.
Proof.
  intros w.
  assert (Hp : fst (predict_fraud_probability (loaded_model 0.5) 0%nat w)
               = Ok 0.5%Q) by (vm_compute; reflexivity).
  split; [exact Hp|].
  destruct (is_fraud_iff_probability_reaches_threshold
              (loaded_model 0.5) 0%nat 0.5 w 0.5 Hp)
    as ((r & Hr & _ & Hiff) & _).
  exists r. split; [exact Hr|]. apply Hiff. vm_compute. discriminate.
Defined.

(** C9 as stated fails: a prediction on the sample, which has no "Time",
    leaves "Time": 0 in the caller's dict. *)
Lemma prediction_writes_time_into_the_input :
  let w := world_of 0.5 create_sample_transaction in
  let w' := snd (predict_with_details (loaded_model 0.5) 0%nat 0.5 w) in
  heap w 0%nat !! "Time" = None
  ∧ heap w' 0%nat !! "Time" = Some (PyInt 0)
  ∧ heap w' 0%nat ≠ heap w 0%nat.
Proof.
  intros w w'.
  assert (Hafter : heap w' 0%nat !! "Time" = Some (PyInt 0))
    by (vm_compute; reflexivity).
  split; [reflexivity|]. split; [exact Hafter|].
  intros Heq. rewrite Heq in Hafter. discriminate Hafter.
Qed.

Lemma prediction_only_defaults_time_witness :
  let w := world_of 0.5 create_sample_transaction in
  let w' := snd (predict_with_details (loaded_model 0.5) 0%nat 0.5 w) in
  fraud_model w' = fraud_model w
  ∧ heap w' 0%nat !! "V1" = create_sample_transaction !! "V1"
  ∧ heap w' 0%nat = <["Time" := PyInt 0]> create_sample_transaction.
Proof.
  intros w w'.
  destruct (prediction_only_defaults_time (loaded_model 0.5) 0%nat 0.5 w w'
              (or_introl eq_refl))
    as (Hmodel & _ & _ & Hkeys & _ & _ & Htime).
  split; [exact Hmodel|]. split; [exact (Hkeys "V1" ltac:(discriminate))|].
  apply Htime; [reflexivity|by eexists|vm_compute; reflexivity].
Defined.

Lemma validation_ignores_time_witness :
  let w := world_of 0.5 null_time in
  Forall (numeric (heap w 0%nat)) required_features
  ∧ (∃ a, getitem (heap w 0%nat) "Amount" ≫= float = Ok a ∧ (0 <= a)%Q)
  ∧ fst (validate_transaction_data 0%nat w) = Ok (true, MsgOK)
  ∧ ∃ r, fst (predict_with_details (loaded_model 0.5) 0%nat 0.5 w) = Ok r
         ∧ fraud_score r = None ∧ is_fraud r = None ∧ confidence r = None
         ∧ error r = Some (MsgFloat PyNone).
Proof.
  intros w.
  assert (Hnum : Forall (numeric (heap w 0%nat)) required_features)
    by numeric_fields.
  assert (Hamount : ∃ a, getitem (heap w 0%nat) "Amount" ≫= float = Ok a
                         ∧ (0 <= a)%Q).
  { exists 149.62%Q. split; [vm_compute; reflexivity|].
    vm_compute. discriminate. }
  split; [exact Hnum|]. split; [exact Hamount|].
  destruct (validation_ignores_time (loaded_model 0.5) 0%nat 0.5 w
              Hnum Hamount) as (_ & Htime).
  destruct (Htime PyNone (TypeError (MsgFloat PyNone))
              ltac:(vm_compute; reflexivity) eq_refl)
    as (Hvalid & _ & _ & r & Hr & Hscore & Hfraud & Hconf & Herr).
  split; [exact Hvalid|]. exists r. split; [exact Hr|].
  split; [exact Hscore|]. split; [exact Hfraud|]. split; [exact Hconf|].
  exact Herr.
Defined.

(** C10 as stated fails: every required field of [refund] is numeric,
    yet validation refuses it, for its negative amount. *)
Lemma numeric_record_with_negative_amount_is_invalid :
  let w := world_of 0.5 refund in
  Forall (numeric (heap w 0%nat)) required_features
  ∧ fst (validate_transaction_data 0%nat w) = Ok (false, MsgNegativeAmount).
Proof.
  intros w. split; [numeric_fields|]. vm_compute. reflexivity.
Qed.

End instances.

(** * Further properties of the pipeline, the handlers and start-up *)

Section more_validation.
Context `{FloatGrammar}.
Import preprocess inference api.


(** X2. Validation reads the 29 required fields and nothing else: two
    records that agree on them get the same verdict and message and cause
    the same log records, whatever else they hold. *)
Theorem validation_reads_required_fields_only
    (l1 l2 : loc) (w1 w2 : world) :
  (∀ f, f ∈ required_features → heap w1 l1 !! f = heap w2 l2 !! f) →
  fst (validate_transaction_data l1 w1) = fst (validate_transaction_data l2 w2)
  ∧ ∃ evs,
      trace (snd (validate_transaction_data l1 w1)) = (trace w1 ++ evs)%list
      ∧ trace (snd (validate_transaction_data l2 w2)) = (trace w2 ++ evs)%list.
Proof.
  intros Hagree. rewrite !validate_eq. cbn [fst snd extend trace].
  destruct (validation_agree _ _ Hagree) as [-> ->]. split; [done|].
  by eexists.
Qed.

(** X3. [prepare_features] refuses what validation refuses: it raises
    ValueError with the validation message inside "Ошибка валидации: ...",
    with every dict as it was and without a call of the scaler. *)
Theorem prepare_features_refuses_invalid_record
    (self : DataPreprocessor) (l : loc) (w : world) (m : msg) :
  fst (validate_transaction_data l w) = Ok (false, m) →
  ∃ w' evs,
    prepare_features self l w = (Raise (ValueError (MsgValidation m)), w')
    ∧ heap w' = heap w ∧ fraud_model w' = fraud_model w
    ∧ trace w' = (trace w ++ evs)%list
    ∧ ∀ x, EvTransform x ∉ evs.
Proof.
  rewrite validate_eq. cbn [fst]. intros Hv.
  rewrite prepare_features_eq. cbn zeta. rewrite Hv.
  eexists _, _. split; [done|]. cbn [extend heap fraud_model trace].
  split; [done|]. split; [done|]. split; [done|].
  intros x. rewrite validation_events_unfold, Hv.
  rewrite list_elem_of_singleton. discriminate.
Qed.

Lemma collect_transaction_record (d : dict) :
  TransactionRecord d → validation_of d = Ok (true, MsgOK) →
  ∃ features,
    collect (with_default_time d) feature_names = Ok features
    ∧ length features = 30%nat.
Proof.
  intros Hrec Hvalid.
  destruct (validation_accepts_inv _ _ Hvalid) as (_ & Hreq & _).
  assert (Hall : Forall (numeric (with_default_time d)) feature_names).
  { rewrite feature_names_cons. constructor.
    - unfold with_default_time. case_bool_decide as Ht.
      + exists (PyInt 0), 0%Q. by rewrite lookup_insert_eq.
      + destruct (d !! "Time") as [v|] eqn:Ev; [|done].
        destruct (Hrec _ _ Ev) as [x Hx]. by exists v, x.
    - rewrite Forall_forall in Hreq |- *. intros f Hf.
      apply numeric_with_default_time; [|by apply Hreq].
      intros ->. by apply time_not_required. }
  destruct (collect_numeric _ _ Hall) as [features Hcollect].
  exists features. split; [done|].
  apply collect_Forall2, Forall2_length in Hcollect. by rewrite <- Hcollect.
Qed.

(** X4. A preprocessor without a scaler fails late: for a
    TransactionRecord that passes validation, [prepare_features] raises
    "Скейлер не загружен" only after it has written the default "Time": 0
    into the caller's record. *)
Theorem prepare_features_without_scaler_still_defaults_time
    (self : DataPreprocessor) (l : loc) (w : world) :
  let d := heap w l in
  dp_scaler self = None →
  TransactionRecord d →
  fst (validate_transaction_data l w) = Ok (true, MsgOK) →
  ∃ w',
    prepare_features self l w = (Raise (ValueError MsgScalerNotLoaded), w')
    ∧ heap w' l = with_default_time d
    ∧ (d !! "Time" = None → heap w' l !! "Time" = Some (PyInt 0)).
Proof.
  intros d Hnone Hrec Hvalid.
  rewrite validate_eq in Hvalid. cbn [fst] in Hvalid. fold d in Hvalid.
  destruct (collect_transaction_record d Hrec Hvalid) as (features & Hc & _).
  rewrite prepare_features_eq. cbn zeta. fold d.
  rewrite Hvalid, Hc, Hnone. eexists. split; [done|].
  assert (Hheap : ∀ w1, heap w1 = heap w →
            heap (if bool_decide (d !! "Time" = None)
                  then World (fraud_model w)
                         (<[l := with_default_time d]> (heap w)) (trace w1)
                  else w1) l = with_default_time d).
  { intros w1 Hw1. unfold with_default_time. case_bool_decide.
    - cbn [heap]. by rewrite fn_lookup_insert.
    - by rewrite Hw1. }
  rewrite Hheap by done. split; [done|]. intros Ht.
  unfold with_default_time. by rewrite bool_decide_eq_true_2, lookup_insert_eq.
Qed.

End more_validation.

Section more_scoring.
Context `{FloatGrammar}.
Import preprocess inference api.

(** The trace [prepare_features] leaves, exactly. *)
Lemma prepare_features_trace (self : DataPreprocessor) (l : loc) (w : world) :
  trace (snd (prepare_features self l w))
  = (trace w ++ validation_events (heap w l)
       ++ match validation_of (heap w l),
                collect (with_default_time (heap w l)) feature_names,
                dp_scaler self with
          | Ok (true, _), Ok features, Some _ => [EvTransform features]
          | _, _, _ => []
          end)%list.
Proof.
  rewrite prepare_features_eq. cbn zeta.
  destruct (validation_of (heap w l)) as [[[] m]|e];
    [|by rewrite app_nil_r..].
  destruct (bool_decide (heap w l !! "Time" = None));
    destruct (collect _ feature_names) as [features|e];
    try destruct (dp_scaler self); cbn [snd extend trace];
    by rewrite <- ?app_assoc, ?app_nil_r.
Qed.

Lemma validation_events_no_error (d : dict) (m : msg) :
  EvLog Error m ∉ validation_events d.
Proof.
  rewrite validation_events_unfold. intros Hin.
  apply elem_of_cons in Hin as [[=]|Hin].
  destruct (validation_of d) as [[[] ?]|?];
    try (by apply elem_of_nil in Hin).
  destruct (getitem d "Amount" ≫= float); try (by apply elem_of_nil in Hin).
  destruct (Qltb 100000 a); [|by apply elem_of_nil in Hin].
  by apply list_elem_of_singleton in Hin.
Qed.

(** A run of [predict_fraud_probability] that returns: what was
    computed, and the trace it left. *)
Lemma predict_fraud_probability_returns
    (self : FraudDetectionModel) (l : loc) (w : world) (p : Q) :
  let d := heap w l in
  fst (predict_fraud_probability self l w) = Ok p →
  ∃ clf sc features scaled,
    model self = Some clf
    ∧ dp_scaler (preprocessor self) = Some sc
    ∧ collect (with_default_time d) feature_names = Ok features
    ∧ sc features = Ok scaled
    ∧ clf scaled = Ok p
    ∧ trace (snd (predict_fraud_probability self l w))
      = (trace w ++ validation_events d
           ++ [EvTransform features; EvPredictProba scaled;
               EvLog Info (MsgPrediction p)])%list.
Proof.
  intros d Hp.
  pose proof (prepare_features_fst (preprocessor self) l w) as Hfst.
  pose proof (prepare_features_trace (preprocessor self) l w) as Htr.
  rewrite features_of_eq in Hfst. fold d in Hfst, Htr.
  rewrite predict_fraud_probability_eq in Hp |- *.
  destruct (model self) as [clf|]; [|discriminate].
  destruct (prepare_features _ l w) as [[scaled|e] w1]; [|discriminate].
  cbn [fst snd] in Hfst, Htr.
  destruct (clf scaled) as [p'|e] eqn:Eclf; [|discriminate].
  cbn [fst] in Hp. injection Hp as ->.
  destruct (validation_of d) as [[[] m]|e]; try discriminate.
  destruct (collect (with_default_time d) feature_names)
    as [features|e] eqn:Ec; [|discriminate].
  destruct (dp_scaler (preprocessor self)) as [sc|]; [|discriminate].
  exists clf, sc, features, scaled. split_and?; try done.
  cbn [snd extend trace]. rewrite Htr, <- !app_assoc. done.
Qed.

(** X5. A probability is what the classifier answers on the scaled
    features: whenever [predict_fraud_probability] returns [p], a
    classifier and a scaler are loaded, the 30 features collected from the
    record (with the default "Time") were scaled, the classifier returned
    [p] on the scaled list, and the trace grew by the records of
    validation, one call of the scaler, one call of the classifier and one
    info record. *)
Theorem probability_is_classifier_of_scaled_features
    (self : FraudDetectionModel) (l : loc) (w : world) (p : Q) :
  let d := heap w l in
  fst (predict_fraud_probability self l w) = Ok p →
  ∃ clf sc features scaled,
    model self = Some clf
    ∧ dp_scaler (preprocessor self) = Some sc
    ∧ collect (with_default_time d) feature_names = Ok features
    ∧ length features = 30%nat
    ∧ sc features = Ok scaled
    ∧ clf scaled = Ok p
    ∧ trace (snd (predict_fraud_probability self l w))
      = (trace w ++ validation_events d
           ++ [EvTransform features; EvPredictProba scaled;
               EvLog Info (MsgPrediction p)])%list.
Proof.
  intros d Hp.
  destruct (predict_fraud_probability_returns self l w p Hp)
    as (clf & sc & features & scaled & Hm & Hs & Hc & Hsc & Hclf & Htr).
  exists clf, sc, features, scaled. split_and?; try done.
  pose proof Hc as Hlen.
  apply collect_Forall2, Forall2_length in Hlen.
  rewrite <- Hlen. reflexivity.
Qed.

(** X6. A failure of [predict_fraud_probability] is the failure of one
    of its steps, re-raised unchanged. Without a classifier it is
    ValueError "Модель не загружена" and the world is untouched. Otherwise
    the exception is the one [prepare_features] or the classifier raised,
    and exactly one error record, the last of the trace, reports it. *)
Theorem probability_failure_is_logged_once_and_reraised
    (self : FraudDetectionModel) (l : loc) (w : world) (e : exn) :
  fst (predict_fraud_probability self l w) = Raise e →
  (model self = None ∧ e = ValueError MsgModelNotLoaded
   ∧ snd (predict_fraud_probability self l w) = w)
  ∨ (∃ clf evs,
       model self = Some clf
       ∧ trace (snd (predict_fraud_probability self l w))
         = (trace w ++ evs ++ [EvLog Error (MsgPredictionError (str e))])%list
       ∧ (∀ m, EvLog Error m ∉ evs)
       ∧ (fst (prepare_features (preprocessor self) l w) = Raise e
          ∨ ∃ scaled,
              fst (prepare_features (preprocessor self) l w) = Ok scaled
              ∧ clf scaled = Raise e)).
Proof.
  intros He. rewrite predict_fraud_probability_eq in He |- *.
  destruct (model self) as [clf|]; [right|left; by injection He as <-].
  pose proof (prepare_features_trace (preprocessor self) l w) as Htr.
  assert (Hno : ∀ m,
    EvLog Error m ∉
      (validation_events (heap w l)
         ++ match validation_of (heap w l),
                  collect (with_default_time (heap w l)) feature_names,
                  dp_scaler (preprocessor self) with
            | Ok (true, _), Ok features, Some _ => [EvTransform features]
            | _, _, _ => []
            end)%list).
  { intros m Hin. apply elem_of_app in Hin as [Hin|Hin].
    - by apply validation_events_no_error in Hin.
    - repeat case_match; try (by apply elem_of_nil in Hin);
        by apply list_elem_of_singleton in Hin. }
  remember (validation_events (heap w l)
              ++ match validation_of (heap w l),
                       collect (with_default_time (heap w l)) feature_names,
                       dp_scaler (preprocessor self) with
                 | Ok (true, _), Ok features, Some _ => [EvTransform features]
                 | _, _, _ => []
                 end)%list as pre eqn:Epre.
  clear Epre.
  destruct (prepare_features _ l w) as [[scaled|e'] w1]; cbn [fst snd] in *.
  - destruct (clf scaled) as [p|e'] eqn:Eclf; [discriminate|].
    injection He as ->. exists clf, (pre ++ [EvPredictProba scaled])%list.
    split; [done|]. split.
    { cbn [snd extend trace]. rewrite Htr, <- !app_assoc. done. }
    split; [|right; by exists scaled].
    intros m Hin. apply elem_of_app in Hin as [Hin|Hin].
    + by apply Hno in Hin.
    + by apply list_elem_of_singleton in Hin.
  - injection He as ->. exists clf, pre. split; [done|]. split.
    { cbn [snd extend trace]. by rewrite Htr, <- !app_assoc. }
    split; [exact Hno|by left].
Qed.

(** X7. [predict_with_details] never raises: it returns the validation
    message for a refused record, the scored result when a probability is
    computed, and the text of the exception when scoring fails. *)
Theorem predict_with_details_never_raises
    (self : FraudDetectionModel) (l : loc) (t : Q) (w : world) :
  ∃ r w',
    predict_with_details self l t w = (Ok r, w')
    ∧ (∀ m, fst (validate_transaction_data l w) = Ok (false, m) →
            r = error_payload m)
    ∧ (∀ p, fst (predict_fraud_probability self l w) = Ok p →
            r = scored self p t)
    ∧ (∀ m e, fst (validate_transaction_data l w) = Ok (true, m) →
              fst (predict_fraud_probability self l w) = Raise e →
              r = error_payload (str e)).
Proof.
  pose proof (predict_with_details_fst self l t w) as Hfst.
  rewrite details_of_eq in Hfst.
  rewrite validate_eq, predict_fraud_probability_fst. cbn [fst].
  destruct (predict_with_details self l t w) as [res w']. cbn [fst] in Hfst.
  destruct (validation_of (heap w l)) as [[[] m]|e] eqn:Ev.
  - destruct (probability_of self (heap w l)) as [p|e]; subst res;
      eexists _, _; (split; [done|]); split_and?; try done;
      try (by intros ? [= <-]); by intros ? ? _ [= <-].
  - subst res. eexists _, _. split; [done|]. split_and?.
    + by intros ? [= <-].
    + intros p Hp. apply probability_of_valid in Hp. congruence.
    + intros ? ? [=].
  - destruct (validation_total (heap w l)) as (b & m & Hv). congruence.
Qed.

(** X8. Predicting twice gives the same answer: after a first
    prediction on a record, whatever its threshold, a second one returns
    what it would have returned at first, and changes no dict. *)
Theorem repeated_prediction_is_stable
    (self : FraudDetectionModel) (l : loc) (t t' : Q) (w : world) :
  let w1 := snd (predict_with_details self l t' w) in
  fst (predict_with_details self l t w1) = fst (predict_with_details self l t w)
  ∧ ∀ l', heap (snd (predict_with_details self l t w1)) l' = heap w1 l'.
Proof.
  intros w1. subst w1.
  destruct (predict_with_details_snd self l t' w) as [evs ->].
  split.
  - rewrite !predict_with_details_fst. cbn [heap].
    apply details_of_heap_after.
  - intros l'.
    destruct (predict_with_details_snd self l t
                (World (fraud_model w) (heap_after self l (heap w))
                   (trace w ++ evs))) as [evs' ->].
    cbn [heap]. unfold heap_after at 1.
    destruct (adds_time self (heap_after self l (heap w) l)) eqn:Eadd;
      [|done].
    exfalso. revert Eadd. unfold heap_after, adds_time.
    destruct (model self); [|done].
    destruct (validation_of (heap w l)) as [[[] m]|e] eqn:Ev;
      rewrite ?Ev; try done.
    case_bool_decide as Ht.
    + rewrite fn_lookup_insert, validation_of_default_time, Ev.
      by rewrite lookup_insert_eq, bool_decide_eq_false_2.
    + by rewrite Ev, bool_decide_eq_false_2.
Qed.

End more_scoring.

Section more_handlers.
Context `{FloatGrammar}.
Import preprocess inference api.

Lemma response_of_eq (g : option FraudDetectionModel) (d : dict) (t : Q) :
  response_of g d t =
  match validation_of d with
  | Ok (true, _) =>
      match g with
      | Some fm =>
          match details_of fm d t with
          | Ok r => Ok (set_valid true r)
          | Raise e => Ok (set_valid false (error_payload (str e)))
          end
      | None =>
          Ok (set_valid false (error_payload (MsgExternal "model.pkl")))
      end
  | Ok (false, m) => Ok (set_valid false (error_payload m))
  | Raise e => Ok (set_valid false (error_payload (str e)))
  end.
Proof.
  unfold response_of. rewrite validate_and_predict_eq.
  cbn [heap fraud_model]. cbn zeta.
  destruct (validation_of d) as [[[] m]|e]; [|done..].
  destruct g as [fm|]; [|done].
  pose proof (predict_with_details_fst fm 0%nat t
                (extend (World (Some fm) (λ _, d) []) (validation_events d)))
    as E.
  cbn [heap extend] in E. rewrite <- E.
  by destruct (predict_with_details fm 0%nat t _) as [[r|e] w2].
Qed.

(** X9. [validate_and_predict] never raises. A refused record gives
    valid = False with the validation message and leaves every dict as it
    was; an accepted one, with a published model, gives the result of
    [predict_with_details] with valid = True. *)
Theorem validate_and_predict_never_raises (l : loc) (t : Q) (w : world) :
  ∃ r w',
    validate_and_predict l t w = (Ok r, w')
    ∧ (∀ m, fst (validate_transaction_data l w) = Ok (false, m) →
            r = set_valid false (error_payload m) ∧ heap w' = heap w)
    ∧ (∀ m fm r0,
         fst (validate_transaction_data l w) = Ok (true, m) →
         fraud_model w = Some fm →
         fst (predict_with_details fm l t w) = Ok r0 →
         r = set_valid true r0).
Proof.
  pose proof (validate_and_predict_fst l t w) as Hfst.
  rewrite response_of_eq in Hfst.
  rewrite validate_eq. cbn [fst].
  assert (Hheap : ∀ m, validation_of (heap w l) = Ok (false, m) →
            heap (snd (validate_and_predict l t w)) = heap w).
  { intros m Hm. rewrite validate_and_predict_eq. cbn zeta. by rewrite Hm. }
  destruct (validate_and_predict l t w) as [res w']. cbn [fst snd] in *.
  destruct (validation_of (heap w l)) as [[[] m]|e] eqn:Ev.
  - destruct (fraud_model w) as [fm|] eqn:Efm.
    + destruct (details_of_total fm (heap w l) t) as (r0 & Hr0 & _).
      rewrite Hr0 in Hfst. subst res. eexists _, _. split; [done|].
      split; [by intros ? [=]|]. intros m' fm' r0' _ [= <-].
      rewrite predict_with_details_fst, Hr0. by intros [= <-].
    + subst res. eexists _, _. split; [done|].
      split; [by intros ? [=]|]. by intros m' fm' r0' _ [=].
  - subst res. eexists _, _. split; [done|]. split.
    + intros m' [= <-]. split; [done|]. by apply (Hheap m).
    + by intros m' fm' r0' [=].
  - destruct (validation_total (heap w l)) as (b & m & Hv). congruence.
Qed.

(** X10. What /predict answers for a published model, a JSON body that
    is not empty and an accepted threshold, on the body without its
    "threshold": 400 with the validation message when validation refuses
    the record; 200 with the score when a probability is computed; and 200
    with every field null when the record passes validation and scoring
    fails. *)
Theorem predict_answers_400_only_for_refused_records
    (req : Request) (w : world) (fm : FraudDetectionModel) (t : Q) :
  let d := heap w (get_json req) in
  let record := delete "threshold" d in
  fraud_model w = Some fm → is_json req = true → size d ≠ 0%nat →
  parse_threshold (default (PyFloat 0.5) (d !! "threshold")) = Ok (inl t) →
  (∀ m, validation_of record = Ok (false, m) →
        fst (predict_fraud req w) = Ok (ErrorBody m, 400%nat))
  ∧ (∀ p, probability_of fm record = Ok p →
          fst (predict_fraud req w)
          = Ok (PredictBody (Some (round p 4)) (Some (Qgeb p t))
                  (Some (round (Py.max p (1 - p)) 4)) (Some (risk_of p)) t
                  (Some (metrics_get (metrics fm) "model_name",
                         metrics_get (metrics fm) "roc_auc")), 200%nat))
  ∧ (∀ m e, validation_of record = Ok (true, m) →
            probability_of fm record = Raise e →
            fst (predict_fraud req w)
            = Ok (PredictBody None None None None t None, 200%nat)).
Proof.
  intros d record Hfm Hjson Hsize Hthr.
  rewrite predict_fraud_eq. cbn zeta. fold d.
  rewrite Hfm, Hjson. cbn [negb].
  rewrite bool_decide_eq_false_2 by done. rewrite Hthr.
  pose proof (validate_and_predict_fst (get_json req) t
    (World (Some fm) (<[get_json req := delete "threshold" d]> (heap w))
       (trace w))) as Hfst.
  cbn [heap fraud_model] in Hfst. rewrite fn_lookup_insert in Hfst.
  fold record in Hfst. rewrite response_of_eq, details_of_eq in Hfst.
  destruct (validate_and_predict (get_json req) t _) as [res w1].
  cbn [fst] in Hfst. split_and?.
  - intros m Hm. rewrite Hm in Hfst. by subst res.
  - intros p Hp. rewrite (probability_of_valid _ _ _ Hp), Hp in Hfst.
    by subst res.
  - intros m e Hm He. rewrite Hm, He in Hfst. by subst res.
Qed.

End more_handlers.

Section success_trace.
Context `{FloatGrammar}.
Import preprocess inference api.

(** A run of [predict_fraud_probability] that returns, in full. *)
Lemma predict_fraud_probability_run
    (self : FraudDetectionModel) (l : loc) (w : world) (p : Q) :
  probability_of self (heap w l) = Ok p →
  ∃ clf sc features scaled,
    model self = Some clf
    ∧ dp_scaler (preprocessor self) = Some sc
    ∧ collect (with_default_time (heap w l)) feature_names = Ok features
    ∧ sc features = Ok scaled
    ∧ clf scaled = Ok p
    ∧ predict_fraud_probability self l w
      = (Ok p,
         World (fraud_model w) (heap_after self l (heap w))
           (trace w ++ validation_events (heap w l)
              ++ [EvTransform features; EvPredictProba scaled;
                  EvLog Info (MsgPrediction p)])).
Proof.
  intros Hp. rewrite <- predict_fraud_probability_fst in Hp.
  destruct (predict_fraud_probability_returns self l w p Hp)
    as (clf & sc & features & scaled & Hm & Hs & Hc & Hsc & Hclf & Htr).
  exists clf, sc, features, scaled. split_and?; try done.
  destruct (predict_fraud_probability_snd self l w) as [evs Hsnd].
  destruct (predict_fraud_probability self l w) as [res w'].
  cbn [fst snd] in *. subst res w'. cbn [trace] in Htr.
  by rewrite Htr.
Qed.

Lemma heap_after_same_heap (self : FraudDetectionModel) (l : loc) (w : world)
    (evs : list event) :
  heap_after self l (heap (extend w evs)) = heap_after self l (heap w).
Proof. done. Qed.

Lemma predict_with_details_run
    (self : FraudDetectionModel) (l : loc) (t : Q) (w : world) (p : Q) :
  probability_of self (heap w l) = Ok p →
  ∃ sc clf features scaled,
    dp_scaler (preprocessor self) = Some sc ∧ model self = Some clf
    ∧ collect (with_default_time (heap w l)) feature_names = Ok features
    ∧ sc features = Ok scaled ∧ clf scaled = Ok p
    ∧ predict_with_details self l t w
      = (Ok (scored self p t),
         World (fraud_model w) (heap_after self l (heap w))
           (trace w ++ validation_events (heap w l)
              ++ validation_events (heap w l)
              ++ [EvTransform features; EvPredictProba scaled;
                  EvLog Info (MsgPrediction p);
                  EvLog Info (MsgDetails (round p 4) (Qgeb p t))])).
Proof.
  intros Hp.
  destruct (predict_fraud_probability_run self l
              (extend w (validation_events (heap w l))) p Hp)
    as (clf & sc & features & scaled & Hm & Hs & Hc & Hsc & Hclf & Hrun).
  exists sc, clf, features, scaled. split_and?; try done.
  rewrite predict_with_details_eq. cbn zeta.
  rewrite (probability_of_valid _ _ _ Hp).
  unfold extend in *. cbn [fraud_model heap trace] in *.
  rewrite Hrun. cbn [fraud_model heap trace]. by rewrite <- !app_assoc.
Qed.

(** X11. A successful /predict validates the record three times and
    scores it once: the trace grows by three runs of validation, one call
    of the scaler on the collected features, one call of the classifier
    and three info records, in this order. *)
Theorem successful_predict_validates_thrice_and_scores_once
    (req : Request) (w : world) (fm : FraudDetectionModel) (t p : Q) :
  let d := heap w (get_json req) in
  let record := delete "threshold" d in
  fraud_model w = Some fm → is_json req = true → size d ≠ 0%nat →
  parse_threshold (default (PyFloat 0.5) (d !! "threshold")) = Ok (inl t) →
  probability_of fm record = Ok p →
  ∃ sc clf features scaled,
    dp_scaler (preprocessor fm) = Some sc ∧ model fm = Some clf
    ∧ collect (with_default_time record) feature_names = Ok features
    ∧ sc features = Ok scaled ∧ clf scaled = Ok p
    ∧ trace (snd (predict_fraud req w))
      = (trace w ++ validation_events record ++ validation_events record
           ++ validation_events record
           ++ [EvTransform features; EvPredictProba scaled;
               EvLog Info (MsgPrediction p);
               EvLog Info (MsgDetails (round p 4) (Qgeb p t));
               EvLog Info (MsgPredictDone (Some (round p 4))
                             (Some (Qgeb p t)))])%list.
Proof.
  intros d record Hfm Hjson Hsize Hthr Hp.
  set (w0 := World (Some fm) (<[get_json req := record]> (heap w)) (trace w)).
  assert (Hrec : heap w0 (get_json req) = record)
    by (cbn [heap w0]; by rewrite fn_lookup_insert).
  destruct (predict_with_details_run fm (get_json req) t
              (extend w0 (validation_events record)) p)
    as (sc & clf & features & scaled & Hs & Hm & Hc & Hsc & Hclf & Hrun).
  { cbn [heap extend]. by rewrite Hrec. }
  cbn [heap extend] in Hc, Hrun. rewrite Hrec in Hc, Hrun.
  exists sc, clf, features, scaled. split_and?; try done.
  rewrite predict_fraud_eq. cbn zeta. fold d record.
  rewrite Hfm, Hjson. cbn [negb].
  rewrite bool_decide_eq_false_2 by done. rewrite Hthr. fold w0.
  rewrite validate_and_predict_eq. cbn zeta. rewrite Hrec.
  rewrite (probability_of_valid _ _ _ Hp). cbn [fraud_model w0].
  unfold extend at 1 in Hrun. cbn [fraud_model heap trace w0] in Hrun.
  unfold extend at 1. cbn [fraud_model heap trace w0].
  rewrite Hrun. cbn [valid set_valid scored default from_option id negb].
  cbn [snd extend trace fraud_score is_fraud set_valid scored].
  by rewrite <- !app_assoc.
Qed.

End success_trace.

Section batch_effects.
Context `{FloatGrammar}.
Import preprocess inference api.

(** No step of a prediction logs the error record of the batch loop. *)
Lemma predict_with_details_logs_no_item_error
    (self : FraudDetectionModel) (l : loc) (t : Q) (w : world)
    (i : nat) (m : msg) :
  EvLog Error (MsgBatchItemError i m)
    ∈ trace (snd (predict_with_details self l t w)) →
  EvLog Error (MsgBatchItemError i m) ∈ trace w.
Proof.
  rewrite predict_with_details_eq. cbn zeta.
  rewrite predict_fraud_probability_eq.
  pose proof (prepare_features_trace (preprocessor self) l
                (extend w (validation_events (heap w l)))) as Htr.
  cbn [heap extend trace] in Htr.
  assert (Hve : EvLog Error (MsgBatchItemError i m)
                  ∉ validation_events (heap w l))
    by apply validation_events_no_error.
  destruct (validation_of (heap w l)) as [[[] mv]|e];
    cbn [snd extend trace];
    rewrite ?elem_of_app, ?list_elem_of_singleton; try (by intros [[|]|]);
    try (by intros [|]).
  destruct (model self) as [clf|];
    [|cbn [snd extend trace];
      rewrite ?elem_of_app, ?list_elem_of_singleton; by intros [[|]|]].
  destruct (prepare_features _ l _) as [[x|e] w1]; cbn [snd] in Htr.
  - destruct (clf x); cbn [snd extend trace]; rewrite Htr;
      rewrite ?elem_of_app, ?elem_of_cons, ?elem_of_nil;
      repeat case_match;
      rewrite ?elem_of_cons, ?elem_of_nil; intuition discriminate.
  - cbn [snd extend trace]. rewrite Htr.
    rewrite ?elem_of_app, ?elem_of_cons, ?elem_of_nil.
    repeat case_match;
      rewrite ?elem_of_cons, ?elem_of_nil; intuition discriminate.
Qed.

Lemma batch_predict_from_world
    (self : FraudDetectionModel) (ts : list loc) (t : Q) :
  ∀ (i : nat) (w : world),
    snd (batch_predict_from self i ts t w)
    = foldl (λ w l, snd (predict_with_details self l t w)) w ts.
Proof.
  induction ts as [|l ts IH]; intros i w; [done|].
  cbn [batch_predict_from foldl]. step.
  destruct (predict_with_details_total self l t w) as (r & w1 & Hrun).
  rewrite Hrun. cbn [snd]. rewrite <- (IH (S i) w1).
  by destruct (batch_predict_from self (S i) ts t w1) as [[rs|e] w2].
Qed.

(** X23. [batch_predict] is a sequence of single predictions: the
    world it leaves is the one [predict_with_details] leaves on each
    transaction in turn, and nothing more. Its own error record is never
    logged: the except branch of its loop is not reached. *)
Theorem batch_predict_is_a_sequence_of_predictions
    (self : FraudDetectionModel) (ts : list loc) (t : Q) (w : world) :
  snd (batch_predict self ts t w)
  = foldl (λ w l, snd (predict_with_details self l t w)) w ts
  ∧ ∀ i m,
      EvLog Error (MsgBatchItemError i m)
        ∈ trace (snd (batch_predict self ts t w)) →
      EvLog Error (MsgBatchItemError i m) ∈ trace w.
Proof.
  unfold batch_predict. rewrite batch_predict_from_world. split; [done|].
  intros i m. revert w.
  induction ts as [|l ts IH]; intros w; [done|].
  cbn [foldl]. intros Hin. apply IH in Hin.
  by apply predict_with_details_logs_no_item_error in Hin.
Qed.

(** X24. /predict on a body without a record, with a published model.
    An empty JSON object is answered 400 "Пустое тело запроса" and nothing
    changes. A body that holds only an accepted "threshold" is not empty:
    the threshold is taken out of it, and the answer is 400 with all 29
    required fields listed as missing. *)
Theorem predict_refuses_bodies_without_a_record
    (req : Request) (w : world) (fm : FraudDetectionModel) :
  fraud_model w = Some fm → is_json req = true →
  (heap w (get_json req) = ∅ →
   predict_fraud req w = (Ok (ErrorBody MsgEmptyBody, 400%nat), w))
  ∧ (∀ v t, heap w (get_json req) = {["threshold" := v]} →
        parse_threshold v = Ok (inl t) →
        fst (predict_fraud req w)
        = Ok (ErrorBody (MsgMissing required_features), 400%nat)
        ∧ heap (snd (predict_fraud req w)) (get_json req) = ∅).
Proof.
  intros Hfm Hjson. split.
  - intros Hd. rewrite predict_fraud_eq. cbn zeta.
    rewrite Hfm, Hjson, Hd. cbn [negb].
    by rewrite bool_decide_eq_true_2 by apply map_size_empty.
  - intros v t Hd Hthr. rewrite predict_fraud_eq. cbn zeta.
    rewrite Hfm, Hjson, Hd. cbn [negb].
    rewrite bool_decide_eq_false_2
      by (rewrite map_size_singleton; discriminate).
    rewrite lookup_singleton_eq. cbn [from_option id]. rewrite Hthr.
    rewrite delete_singleton_eq.
    rewrite validate_and_predict_eq. cbn zeta. cbn [heap].
    rewrite fn_lookup_insert.
    assert (Hv : validation_of ∅ = Ok (false, MsgMissing required_features))
      by (vm_compute; reflexivity).
    rewrite Hv. cbn [valid set_valid error_payload negb from_option id
                       error fst snd heap extend].
    split; [done|]. by rewrite fn_lookup_insert.
Qed.

(** X25. /predict/batch asks for its transactions first: without a
    "transactions" field the answer is 400 whatever the threshold is, and
    nothing changes. An empty list is a batch: it is answered 200 with no
    results and a total of 0, and one info record is logged. *)
Theorem predict_batch_asks_for_transactions_first
    (req : BatchRequest) (w : world) (fm : FraudDetectionModel) :
  fraud_model w = Some fm → batch_is_json req = true →
  (batch_transactions req = None →
   predict_batch req w = (Ok (ErrorBody MsgExpectTransactions, 400%nat), w))
  ∧ (∀ t, batch_transactions req = Some [] →
        parse_threshold (default (PyFloat 0.5) (batch_threshold req))
        = Ok (inl t) →
        predict_batch req w
        = (Ok (BatchBody [] 0 t, 200%nat),
           extend w [EvLog Info (MsgBatchDone 0)])).
Proof.
  intros Hfm Hjson. split.
  - intros Hts. unfold predict_batch. step.
    by rewrite Hfm, Hjson, Hts.
  - intros t Hts Hthr. rewrite (predict_batch_eq req w [] Hts).
    by rewrite Hfm, Hjson, Hthr.
Qed.

End batch_effects.

Section startup_facts.
Import startup.

Ltac run :=
  unfold load_model, load_scaler, DataPreprocessor_init, catch, exists_,
    joblib_load, fail, log, mbind, Boot_bind, mret, Boot_ret in *;
  cbn [files global_model api_model records negb] in *.

Lemma path_join_nonempty (a b : string) : b ≠ "" → path_join a b ≠ "".
Proof.
  intros Hb. destruct a as [|c a]; [done|]. unfold path_join.
  by destruct (ends_with_slash (String c a)).
Qed.

Lemma DataPreprocessor_init_eq (path : string) (s : process) :
  path ≠ "" →
  DataPreprocessor_init (Some path) s =
  match scaler_file (files s) path with
  | Some (Ok sc) =>
      (Done {| dp_scaler := Some sc |},
       Process (files s) (global_model s) (api_model s)
         (records s ++ [ScalerLoadedFrom path]))
  | Some (Raise e) =>
      (Failed (LoadFailed e),
       Process (files s) (global_model s) (api_model s)
         (records s ++ [ScalerLoadError (LoadFailed e)]))
  | None => (Done {| dp_scaler := None |}, s)
  end.
Proof.
  intros Hne. destruct path as [|c path]; [done|].
  unfold DataPreprocessor_init. run.
  destruct (scaler_file (files s) (String c path)) as [[sc|e]|] eqn:Es;
    rewrite ?bool_decide_eq_true_2, ?bool_decide_eq_false_2
      by (try (by eexists); by intros [? [=]]);
    by rewrite ?Es.
Qed.

(** [load_model], case by case on the three files. *)
Lemma load_model_eq (dir : string) (s : process) :
  let model_path := path_join dir "model.pkl" in
  let scaler_path := path_join dir "scaler.pkl" in
  let metrics_path := path_join dir "metrics.pkl" in
  let logged rs :=
    Process (files s) (global_model s) (api_model s) (records s ++ rs) in
  let failed e rs := (Failed e, logged (rs ++ [ModelLoadError e])%list) in
  load_model dir s =
  match classifier_file (files s) model_path,
        scaler_file (files s) scaler_path with
  | None, _ => failed (ModelNotFound model_path) []
  | Some _, None => failed (ScalerNotFound scaler_path) []
  | Some (Raise e), Some _ => failed (LoadFailed e) []
  | Some (Ok c), Some (Raise e) =>
      failed (LoadFailed e) [ModelLoaded model_path]
  | Some (Ok c), Some (Ok sc) =>
      match metrics_file (files s) metrics_path with
      | Some (Raise e) =>
          failed (LoadFailed e)
            [ModelLoaded model_path; ScalerLoaded scaler_path]
      | mt =>
          (Done {| model := Some c; scaler := Some sc;
                   metrics := match mt with Some (Ok m) => Some m
                                          | _ => None end;
                   preprocessor := {| dp_scaler := Some sc |} |},
           logged ([ModelLoaded model_path; ScalerLoaded scaler_path]
                     ++ match mt with Some (Ok _) => [MetricsLoaded metrics_path]
                                    | _ => [] end
                     ++ [ScalerLoadedFrom scaler_path; ModelInitialised])%list)
      end
  end.
Proof.
  intros model_path scaler_path metrics_path logged failed.
  subst logged failed. cbn beta.
  assert (Hne : scaler_path ≠ "") by (by apply path_join_nonempty).
  unfold load_model. fold model_path scaler_path metrics_path.
  clearbody model_path scaler_path metrics_path.
  destruct (classifier_file (files s) model_path) as [[c|e]|] eqn:Ec;
  destruct (scaler_file (files s) scaler_path) as [[sc|e']|] eqn:Es;
  destruct (metrics_file (files s) metrics_path) as [[m|e'']|] eqn:Em;
  unfold catch, exists_, joblib_load, fail, log, mbind, Boot_bind, mret, Boot_ret;
  repeat (progress
    (cbn [negb files global_model api_model records];
     rewrite ?Ec, ?Es, ?Em;
     rewrite ?DataPreprocessor_init_eq by done;
     rewrite ?bool_decide_eq_true_2 by (by eexists);
     rewrite ?bool_decide_eq_false_2 by (by intros [? [=]])));
  rewrite <- ?app_assoc; done.
Qed.

(** Loading only appends log records. *)
Lemma load_model_frame (dir : string) (s : process) :
  let s' := snd (load_model dir s) in
  files s' = files s ∧ global_model s' = global_model s
  ∧ api_model s' = api_model s.
Proof.
  rewrite load_model_eq. cbn zeta. by repeat case_match.
Qed.

(** What a successful load found on the disk and built from it. *)
Lemma load_model_done (dir : string) (s s' : process)
    (m : FraudDetectionModel) :
  load_model dir s = (Done m, s') →
  ∃ c sc,
    classifier_file (files s) (path_join dir "model.pkl") = Some (Ok c)
    ∧ scaler_file (files s) (path_join dir "scaler.pkl") = Some (Ok sc)
    ∧ model m = Some c ∧ scaler m = Some sc
    ∧ dp_scaler (preprocessor m) = Some sc
    ∧ match metrics_file (files s) (path_join dir "metrics.pkl") with
      | Some (Ok d) => metrics m = Some d
      | Some (Raise _) => False
      | None => metrics m = None
      end.
Proof.
  intros Hrun. rewrite load_model_eq in Hrun. cbn zeta in Hrun.
  destruct (classifier_file _ _) as [[c|?]|];
    destruct (scaler_file _ _) as [[sc|?]|]; try done.
  exists c, sc.
  destruct (metrics_file _ _) as [[d|?]|]; [|done|];
    injection Hrun as <- _; by split_and?.
Qed.

(** X12. A model that [load_model] returns is complete: model.pkl and
    scaler.pkl were there and loaded, the preprocessor holds the scaler of
    scaler.pkl, and the metrics are those of metrics.pkl when the file is
    there and None when it is not. Loading changes neither the disk nor
    the two singletons. *)
Theorem load_model_returns_a_complete_model (dir : string) (s s' : process)
    (m : FraudDetectionModel) :
  load_model dir s = (Done m, s') →
  ∃ c sc,
    classifier_file (files s) (path_join dir "model.pkl") = Some (Ok c)
    ∧ scaler_file (files s) (path_join dir "scaler.pkl") = Some (Ok sc)
    ∧ model m = Some c ∧ scaler m = Some sc
    ∧ dp_scaler (preprocessor m) = Some sc
    ∧ match metrics_file (files s) (path_join dir "metrics.pkl") with
      | Some (Ok d) => metrics m = Some d
      | Some (Raise _) => False
      | None => metrics m = None
      end
    ∧ files s' = files s ∧ global_model s' = global_model s
    ∧ api_model s' = api_model s.
Proof.
  intros Hrun. pose proof (load_model_frame dir s) as Hfr.
  rewrite Hrun in Hfr. cbn [snd] in Hfr. cbn zeta in Hfr.
  destruct (load_model_done _ _ _ _ Hrun) as (c & sc & ? & ? & ? & ? & ? & ?).
  destruct Hfr as (? & ? & ?). exists c, sc. by split_and?.
Qed.

(** X13. A load that fails reports its first fault: a missing model.pkl
    before anything else, then a missing scaler.pkl, both before any file
    is read; otherwise the exception of the first file that does not load,
    in the order model, scaler, metrics. The error is re-raised after one
    error record, the last of the log, and the singletons are untouched. *)
Theorem load_model_failure_names_the_first_fault (dir : string)
    (s s' : process) (e : load_error) :
  load_model dir s = (Failed e, s') →
  let model_path := path_join dir "model.pkl" in
  let scaler_path := path_join dir "scaler.pkl" in
  let metrics_path := path_join dir "metrics.pkl" in
  last (records s') = Some (ModelLoadError e)
  ∧ global_model s' = global_model s ∧ api_model s' = api_model s
  ∧ ((e = ModelNotFound model_path
      ∧ classifier_file (files s) model_path = None
      ∧ records s' = (records s ++ [ModelLoadError e])%list)
     ∨ (e = ScalerNotFound scaler_path
        ∧ is_Some (classifier_file (files s) model_path)
        ∧ scaler_file (files s) scaler_path = None
        ∧ records s' = (records s ++ [ModelLoadError e])%list)
     ∨ (∃ x, e = LoadFailed x
        ∧ is_Some (scaler_file (files s) scaler_path)
        ∧ (classifier_file (files s) model_path = Some (Raise x)
           ∨ (∃ c, classifier_file (files s) model_path = Some (Ok c)
              ∧ (scaler_file (files s) scaler_path = Some (Raise x)
                 ∨ (∃ sc, scaler_file (files s) scaler_path = Some (Ok sc)
                    ∧ metrics_file (files s) metrics_path
                      = Some (Raise x))))))).
Proof.
  intros Hrun model_path scaler_path metrics_path.
  pose proof (load_model_frame dir s) as Hfr.
  rewrite Hrun in Hfr. cbn [snd] in Hfr. cbn zeta in Hfr.
  destruct Hfr as (_ & Hg & Ha).
  rewrite load_model_eq in Hrun. cbn zeta in Hrun.
  fold model_path scaler_path metrics_path in Hrun.
  destruct (classifier_file _ model_path) as [[c|x]|] eqn:Ec.
  - destruct (scaler_file _ scaler_path) as [[sc|x]|] eqn:Es.
    + destruct (metrics_file _ metrics_path) as [[d|x]|] eqn:Em; [done| |done].
      injection Hrun as <- <-. cbn [records]. split_and?; [|done..|].
      { by rewrite last_app. }
      right. right. exists x. split_and?; [done|by eexists|].
      right. exists c. split; [done|]. right. by exists sc.
    + injection Hrun as <- <-. cbn [records]. split_and?; [|done..|].
      { by rewrite last_app. }
      right. right. exists x. split_and?; [done|by eexists|].
      right. exists c. split; [done|]. by left.
    + injection Hrun as <- <-. cbn [records]. split_and?; [|done..|].
      { by rewrite last_app. }
      right. left. split_and?; [done|by eexists|done|done].
  - destruct (scaler_file _ scaler_path) as [[sc|x']|] eqn:Es.
    + injection Hrun as <- <-. cbn [records]. split_and?; [|done..|].
      { by rewrite last_app. }
      right. right. exists x. split_and?; [done|by eexists|]. by left.
    + injection Hrun as <- <-. cbn [records]. split_and?; [|done..|].
      { by rewrite last_app. }
      right. right. exists x. split_and?; [done|by eexists|]. by left.
    + injection Hrun as <- <-. cbn [records]. split_and?; [|done..|].
      { by rewrite last_app. }
      right. left. split_and?; [done|by eexists|done|done].
  - injection Hrun as <- <-. cbn [records]. split_and?; [|done..|].
    { by rewrite last_app. }
    by left.
Qed.

Section with_layout.
Context `{Layout}.

Lemma get_model_eq (dir : string) (s : process) :
  get_model dir s =
  match global_model s with
  | Some i => (Done i, s)
  | None =>
      match load_model dir s with
      | (Done m, s') =>
          (Done (Instance dir m),
           Process (files s') (Some (Instance dir m)) (api_model s')
             (records s'))
      | (Failed e, s') => (Failed e, s')
      end
  end.
Proof.
  unfold get_model, FraudDetectionModel_init.
  unfold mbind, Boot_bind, mret, Boot_ret. cbn [from_option id].
  destruct (global_model s); [done|]. by destruct (load_model dir s) as [[]].
Qed.

(** X14. [get_model] is a singleton: once a call has returned an
    instance, the instance is cached and every later call returns it,
    whatever directory it asks for, without reading the disk or logging.
    A first instance is the one loaded from the directory asked for. *)
Theorem get_model_is_a_singleton (dir dir' : string) (s s1 : process)
    (i : instance) :
  get_model dir s = (Done i, s1) →
  global_model s1 = Some i
  ∧ get_model dir' s1 = (Done i, s1)
  ∧ (global_model s = None →
     model_dir i = dir ∧ fst (load_model dir s) = Done (this i))
  ∧ files s1 = files s ∧ api_model s1 = api_model s.
Proof.
  intros Hrun. rewrite get_model_eq in Hrun.
  pose proof (load_model_frame dir s) as Hfr. cbn zeta in Hfr.
  destruct (global_model s) as [i0|] eqn:Eg.
  - injection Hrun as <- <-. rewrite get_model_eq, Eg. by split_and?.
  - destruct (load_model dir s) as [[m|e] s'] eqn:El; [|done].
    injection Hrun as <- <-. rewrite get_model_eq.
    cbn [global_model files api_model snd] in *.
    destruct Hfr as (? & ? & ?). by split_and?.
Qed.

Lemma initialize_model_eq (s : process) :
  initialize_model s =
  match get_model api_model_dir s with
  | (Done i, s') =>
      (Done true, Process (files s') (global_model s') (Some i)
                    (records s' ++ [ApiInitialised]))
  | (Failed e, s') =>
      (Done false, Process (files s') (global_model s') (api_model s')
                     (records s' ++ [ApiInitError e]))
  end.
Proof.
  unfold initialize_model, catch, log, mbind, Boot_bind, mret, Boot_ret.
  by destruct (get_model api_model_dir s) as [[]].
Qed.

(** X15. [initialize_model] never raises. It returns True exactly when
    it publishes a model, which is then the singleton of inference.py:
    loaded from the directory of the API, with classifier, scaler and
    preprocessor, when there was no singleton, and the earlier singleton
    otherwise. It returns False when loading failed: nothing is published
    or cached, and the last log record reports the error. *)
Theorem initialize_model_publishes_the_singleton (s : process) :
  ∃ b s',
    initialize_model s = (Done b, s')
    ∧ files s' = files s
    ∧ (b = true →
       ∃ i, api_model s' = Some i ∧ global_model s' = Some i
            ∧ (global_model s = None →
               model_dir i = api_model_dir
               ∧ is_Some (model (this i)) ∧ is_Some (scaler (this i))
               ∧ dp_scaler (preprocessor (this i)) = scaler (this i))
            ∧ (∀ i0, global_model s = Some i0 → i = i0))
    ∧ (b = false →
       api_model s' = api_model s ∧ global_model s' = None
       ∧ global_model s = None
       ∧ ∃ e, fst (load_model api_model_dir s) = Failed e
              ∧ last (records s') = Some (ApiInitError e)).
Proof.
  rewrite initialize_model_eq, get_model_eq.
  pose proof (load_model_frame api_model_dir s) as Hfr. cbn zeta in Hfr.
  destruct (global_model s) as [i0|] eqn:Eg.
  - eexists _, _. split; [done|]. cbn [files api_model global_model].
    split_and?; [done| |done].
    intros _. exists i0. split_and?; try done. by intros ? [= ->].
  - destruct (load_model api_model_dir s) as [[m|e] s'] eqn:El.
    + eexists _, _. split; [done|]. cbn [files api_model global_model snd] in *.
      split_and?; [by destruct Hfr| |done].
      intros _. eexists. split_and?; try done. intros _. cbn [this model_dir].
      destruct (load_model_done _ _ _ _ El)
        as (c & sc & _ & _ & -> & -> & -> & _).
      by split_and?.
    + eexists _, _. split; [done|].
      cbn [files api_model global_model records snd] in *.
      destruct Hfr as (? & ? & ?). split_and?; [done|done|].
      intros _. split_and?; [done|congruence|done|].
      exists e. by rewrite last_snoc.
Qed.

End with_layout.
End startup_facts.

Section info_facts.
Import inference info.

(** [get_model_info], case by case on the metrics. *)
Lemma get_model_info_eq (self : FraudDetectionModel) (dir : string) :
  get_model_info self dir =
  let base :=
    ModelInfo (bool_decide (is_Some (model self)))
      (bool_decide (is_Some (scaler self))) dir in
  match metrics self with
  | Some m =>
      if bool_decide (m = ∅) then Ok (base None None None)
      else
        match len (default (PyList []) (m !! "feature_names")) with
        | Ok n =>
            Ok (base (Some (metrics_get (metrics self) "model_name"))
                  (Some (metrics_get (metrics self) "roc_auc")) (Some n))
        | Raise e => Raise e
        end
  | None => Ok (base None None None)
  end.
Proof.
  unfold get_model_info. cbn zeta.
  destruct (metrics self) as [m|] eqn:Em; [|done].
  destruct (decide (m = ∅)) as [->|Hne].
  - rewrite (bool_decide_eq_true_2 (size _ = 0%nat)) by apply map_size_empty.
    by rewrite (bool_decide_eq_true_2 (∅ = ∅)) by done.
  - rewrite (bool_decide_eq_false_2 (size m = 0%nat))
      by (by rewrite map_size_empty_iff).
    rewrite (bool_decide_eq_false_2 (m = ∅)) by done.
    unfold mbind, result_bind, mret, result_ret. cbn [metrics_get].
    by destruct (len _).
Qed.

(** X16. [get_model_info] raises exactly when the metrics hold a
    "feature_names" that has no length: None, a boolean or a number. When
    it returns, its flags tell whether the classifier and the scaler are
    loaded, the feature count is there exactly when the metrics are not
    empty, and it is 0 when they have no "feature_names". *)
Theorem get_model_info_fails_only_on_unsized_feature_names
    (self : FraudDetectionModel) (dir : string) :
  ((∃ e, get_model_info self dir = Raise e)
   ↔ ∃ m v, metrics self = Some m ∧ m !! "feature_names" = Some v
            ∧ match v with
              | PyNone | PyBool _ | PyInt _ | PyFloat _ => True
              | PyStr _ | PyList _ | PyDict _ => False
              end)
  ∧ ∀ i, get_model_info self dir = Ok i →
      (model_loaded i = true ↔ is_Some (model self))
      ∧ (scaler_loaded i = true ↔ is_Some (scaler self))
      ∧ model_dir i = dir
      ∧ (is_Some (feature_count i) ↔
         ∃ m, metrics self = Some m ∧ m ≠ ∅)
      ∧ ((∃ m, metrics self = Some m ∧ m ≠ ∅
               ∧ m !! "feature_names" = None) →
         feature_count i = Some 0%nat).
Proof.
  rewrite get_model_info_eq. cbn zeta. split.
  - destruct (metrics self) as [m|] eqn:Em.
    + destruct (decide (m = ∅)) as [->|Hne].
      * rewrite (bool_decide_eq_true_2 (∅ = ∅)) by done. split.
        -- by intros [e [=]].
        -- intros (m & v & [= <-] & Hv & _). by rewrite lookup_empty in Hv.
      * rewrite (bool_decide_eq_false_2 (m = ∅)) by done.
        destruct (m !! "feature_names") as [v|] eqn:Ev; cbn [from_option id].
        -- split.
           ++ intros [e He]. exists m, v. split_and?; [done..|].
              by destruct v.
           ++ intros (m' & v' & [= <-] & Hv' & Hv).
              rewrite Ev in Hv'. injection Hv' as <-.
              destruct v; try done; by eexists.
        -- split; [by intros [e [=]]|].
           intros (m' & v' & [= <-] & Hv' & _). congruence.
    + split; [by intros [e [=]]|]. by intros (m & v & [=] & _).
  - intros i Hi.
    destruct (metrics self) as [m|] eqn:Em.
    + destruct (decide (m = ∅)) as [->|Hne].
      * rewrite (bool_decide_eq_true_2 (∅ = ∅)) in Hi by done. injection Hi as <-.
        cbn [model_loaded scaler_loaded model_dir feature_count].
        rewrite !bool_decide_eq_true. split_and?; try done.
        -- split; [by intros [? [=]]|]. by intros (m & [= <-] & ?).
        -- by intros (m & [= <-] & ? & _).
      * rewrite (bool_decide_eq_false_2 (m = ∅)) in Hi by done.
        destruct (len _) as [n|e] eqn:En; [|done]. injection Hi as <-.
        cbn [model_loaded scaler_loaded model_dir feature_count].
        rewrite !bool_decide_eq_true. split_and?; try done.
        -- split; [|by eexists]. intros _. by exists m.
        -- intros (m' & [= <-] & _ & Hnone). rewrite Hnone in En.
           cbn in En. congruence.
    + injection Hi as <-.
      cbn [model_loaded scaler_loaded model_dir feature_count].
      rewrite !bool_decide_eq_true. split_and?; try done.
      -- split; [by intros [? [=]]|]. by intros (m & [=] & ?).
      -- by intros (m & [=] & _).
Qed.

(** X17. The model name and the AUC that [get_model_info] reports are
    those a scored prediction carries; when the metrics are absent or
    empty it reports none, where a prediction says "Unknown". *)
Theorem model_info_names_match_predictions
    (self : FraudDetectionModel) (dir : string) (i : model_info) (p t : Q) :
  get_model_info self dir = Ok i →
  match model_name i, model_auc i with
  | Some name, Some auc =>
      inference.model_info (scored self p t) = Some (name, auc)
  | None, None =>
      inference.model_info (scored self p t)
      = Some (PyStr "Unknown", PyStr "Unknown")
  | _, _ => False
  end.
Proof.
  rewrite get_model_info_eq. cbn zeta. intros Hi.
  destruct (metrics self) as [m|] eqn:Em.
  - destruct (decide (m = ∅)) as [->|Hne].
    + rewrite (bool_decide_eq_true_2 (∅ = ∅)) in Hi by done. injection Hi as <-.
      cbn [model_name model_auc scored inference.model_info].
      by rewrite Em.
    + rewrite (bool_decide_eq_false_2 (m = ∅)) in Hi by done.
      destruct (len _) as [n|e]; [|done]. injection Hi as <-.
      cbn [model_name model_auc scored inference.model_info].
      by rewrite Em.
  - injection Hi as <-.
    cbn [model_name model_auc scored inference.model_info]. by rewrite Em.
Qed.

Lemma health_check_eq (dir : string) (w : world) :
  health_check dir w =
  match fraud_model w with
  | None => (Ok (HealthBody false false None "1.0.0", 503%nat), w)
  | Some fm =>
      match get_model_info fm dir with
      | Ok i => (Ok (HealthBody true true (Some i) "1.0.0", 200%nat), w)
      | Raise e =>
          (Ok (HealthBody true true None "1.0.0", 200%nat),
           extend w [EvLog Warning (MsgHandlerError (str e))])
      end
  end.
Proof.
  unfold health_check. step.
  destruct (fraud_model w) as [fm|] eqn:Efm; [|done].
  rewrite bool_decide_eq_true_2 by (by eexists).
  destruct (get_model_info fm dir); cbn [fraud_model heap trace]; by rewrite ?Efm.
Qed.

Lemma get_model_info_handler_eq (dir : string) (w : world) :
  get_model_info_handler dir w =
  match fraud_model w with
  | None => (Ok (ErrorBody MsgModelNotLoaded, 503%nat), w)
  | Some fm =>
      match get_model_info fm dir with
      | Ok i => (Ok (InfoBody i, 200%nat), w)
      | Raise e =>
          (Ok (ErrorBody (str e), 500%nat),
           extend w [EvLog Error (MsgHandlerError (str e))])
      end
  end.
Proof.
  unfold get_model_info_handler. step.
  destruct (fraud_model w) as [fm|] eqn:Efm; [|done].
  destruct (get_model_info fm dir); cbn [fraud_model heap trace]; by rewrite ?Efm.
Qed.

Ltac settle :=
  repeat match goal with
         | |- _ ↔ _ => split
         | |- _ → _ => intros ?
         | H : _ ∧ _ |- _ => destruct H
         | H : ∃ _, _ |- _ => destruct H
         | H : is_Some None |- _ => by destruct H
         end;
  simplify_eq; eauto 10.

(** X18. /health and /model-info on the same world. Without a published
    model both answer 503. With one, /health always answers 200, and
    /model-info answers 200 with the same information, or 500 when
    [get_model_info] raises: then /health reports an empty model_info and
    logs a warning where /model-info logs an error. Neither changes the
    heap or the published model. *)
Theorem health_survives_what_model_info_reports (dir : string) (w : world) :
  ∃ loaded info hcode b icode wh wi,
    health_check dir w = (Ok (HealthBody loaded loaded info "1.0.0", hcode), wh)
    ∧ get_model_info_handler dir w = (Ok (b, icode), wi)
    ∧ (loaded = true ↔ is_Some (fraud_model w))
    ∧ hcode = (if loaded then 200 else 503)%nat
    ∧ (icode = 503%nat ↔ fraud_model w = None)
    ∧ (icode = 200%nat ↔ ∃ i, info = Some i ∧ b = InfoBody i)
    ∧ (icode = 500%nat ↔
       loaded = true ∧ info = None
       ∧ ∃ e, b = ErrorBody e
              ∧ trace wh = (trace w ++ [EvLog Warning (MsgHandlerError e)])%list
              ∧ trace wi = (trace w ++ [EvLog Error (MsgHandlerError e)])%list)
    ∧ (icode ≠ 500%nat → wh = w ∧ wi = w)
    ∧ heap wh = heap w ∧ heap wi = heap w
    ∧ fraud_model wh = fraud_model w ∧ fraud_model wi = fraud_model w.
Proof.
  rewrite health_check_eq, get_model_info_handler_eq.
  destruct (fraud_model w) as [fm|] eqn:Efm.
  - destruct (get_model_info fm dir) as [i|e].
    + eexists true, (Some i), _, _, _, _, _.
      split_and?; try done; settle.
    + eexists true, None, _, _, _, _, _.
      split_and?; try done; settle.
  - eexists false, None, _, _, _, _, _.
    split_and?; try done; settle.
Qed.

End info_facts.

Section sample_facts.
Context `{FloatGrammar}.
Import preprocess inference info.

(** X19. The sample of /sample-transaction is a valid record with
    neither "Time" nor "threshold": validation accepts it without a
    warning, its 30 features start with the default time 0, and every
    model whose scaler and classifier answer on them scores it. *)
Theorem sample_transaction_is_scored_by_any_working_model (w : world) :
  ∃ d features,
    get_sample_transaction w = (Ok (SampleBody d, 200%nat), w)
    ∧ validation_of d = Ok (true, MsgOK)
    ∧ validation_events d = [EvValidate]
    ∧ d !! "Time" = None ∧ d !! "threshold" = None
    ∧ collect (with_default_time d) feature_names = Ok features
    ∧ length features = 30%nat ∧ features !! 0%nat = Some 0%Q
    ∧ ∀ fm sc clf scaled p t,
        dp_scaler (preprocessor fm) = Some sc → model fm = Some clf →
        sc features = Ok scaled → clf scaled = Ok p →
        details_of fm d t = Ok (scored fm p t).
Proof.
  assert (Hv : validation_of examples.create_sample_transaction
               = Ok (true, MsgOK)) by (vm_compute; reflexivity).
  assert (Hc : ∃ features,
             collect (with_default_time examples.create_sample_transaction)
               feature_names = Ok features
             ∧ length features = 30%nat ∧ features !! 0%nat = Some 0%Q).
  { eexists. split; [vm_compute; reflexivity|]. split; reflexivity. }
  destruct Hc as (features & Hc & Hlen & Hhd).
  exists examples.create_sample_transaction, features.
  split; [reflexivity|]. split; [exact Hv|].
  split; [vm_compute; reflexivity|].
  split; [vm_compute; reflexivity|]. split; [vm_compute; reflexivity|].
  split; [exact Hc|]. split; [exact Hlen|]. split; [exact Hhd|].
  intros fm sc clf scaled p t Hsc Hclf Hscaled Hp.
  apply details_of_scored.
  by rewrite probability_of_eq, Hclf, features_of_eq, Hv, Hc, Hsc, Hscaled.
Qed.

End sample_facts.

Section llm_facts.
Import inference explain.
Context `{Environment}.

Lemma init_model_idem (s : llm) :
  MODEL (init_model (init_model s)) = MODEL (init_model s).
Proof.
  unfold init_model. destruct (MODEL s) as [m|] eqn:Em; [by rewrite Em|].
  destruct genai_installed; cbn [negb MODEL]; [|done].
  destruct api_key_set; cbn [negb MODEL]; [|done].
  by destruct GenerativeModel.
Qed.

(** X20. The LLM is looked up again at every call: while no model can
    be built, each call of [llm_available] answers False and logs one more
    record, the same as the call before; once a model is built, the calls
    answer True and change nothing. *)
Theorem llm_unavailable_is_logged_at_every_call (s : llm) :
  let '(b1, s1) := llm_available s in
  let '(b2, s2) := llm_available s1 in
  b2 = b1 ∧ MODEL s2 = MODEL s1
  ∧ (b1 = true ↔ is_Some (MODEL s1))
  ∧ (b1 = true → s2 = s1)
  ∧ (b1 = false →
     ∃ r, records s2 = (records s1 ++ [r])%list
          ∧ records s1 = (records s ++ [r])%list
          ∧ r ≠ Initialised ∧ ∀ e, r ≠ ExplainError e)
  ∧ (MODEL s = None → b1 = true →
     records s1 = (records s ++ [Initialised])%list)
  ∧ (is_Some (MODEL s) → s1 = s ∧ b1 = true).
Proof.
  unfold llm_available, init_model.
  destruct (MODEL s) as [m|] eqn:Em;
    [rewrite Em
    |destruct genai_installed; [destruct api_key_set;
       [destruct GenerativeModel as [m|e]|]|]];
    cbn [negb MODEL records];
    rewrite ?bool_decide_eq_true_2 by (by eexists);
    rewrite ?bool_decide_eq_false_2 by (by intros [? [=]]);
    split_and?; try done;
    try (by intros [? [=]]); try (by split; [|intros [? [=]]]);
    try (by intros _; eexists).
Qed.

End llm_facts.

Section explain_facts.
Import preprocess inference explain.
Context `{FloatGrammar} `{Environment}.

(** The handler of /explain, step by step. *)
Lemma explain_fraud_eq (req : Request) (s : llm) (w : world) :
  explain_fraud req s w =
  let tx := default (payload req) (transaction_field req) in
  match fraud_model w with
  | None => (Ok (ErrorBody MsgModelNotLoaded, 503%nat, s), w)
  | Some fm =>
      if negb (is_json req) then (Ok (ErrorBody MsgExpectJson, 400%nat, s), w)
      else
        match api.parse_threshold
                (default (PyFloat 0.5) (heap w (payload req) !! "threshold"))
        with
        | Ok (inr m) => (Ok (ErrorBody m, 400%nat, s), w)
        | Ok (inl t) =>
            match predict_with_details fm tx t w with
            | (Ok result, w1) =>
                if from_option nonempty false (error result)
                then (Ok (ErrorBody
                            (default MsgValidationError (error result)),
                          400%nat, s), w1)
                else
                  let e := explain_transaction (heap w1 tx) result s in
                  let a := llm_available (snd e) in
                  (Ok (ExplainBody (fst e)
                         (fraud_score result) (is_fraud result)
                         (confidence result) (risk_level result)
                         (default t (inference.threshold result))
                         (model_info result) (fst a), 200%nat, snd a), w1)
            | (Raise e, w1) =>
                (Ok (ErrorBody (MsgInternal (str e)), 500%nat, s),
                 extend w1 [EvLog Error (MsgHandlerError (str e));
                            EvLog Error MsgTraceback])
            end
        | Raise e =>
            (Ok (ErrorBody (MsgInternal (str e)), 500%nat, s),
             extend w [EvLog Error (MsgHandlerError (str e));
                       EvLog Error MsgTraceback])
        end
  end.
Proof.
  unfold explain_fraud. cbn zeta. step.
  destruct (fraud_model w) as [fm|] eqn:Efm; [|done].
  destruct (is_json req); cbn [negb]; [|done].
  destruct (api.parse_threshold _) as [[t|m]|e]; cbn [fraud_model heap trace].
  - destruct (predict_with_details fm _ t w) as [[r|e] w1]; cbn [negb].
    + destruct (from_option nonempty false (error r)); [done|].
      destruct (explain_transaction _ r s) as [ex s1]. cbn [fst snd].
      by destruct (llm_available s1).
    + by rewrite <- app_assoc.
  - done.
  - rewrite ?Efm. by rewrite <- app_assoc.
Qed.

(** The messages of a refusal are texts with words. *)
Lemma validation_refusal_nonempty (d : dict) (m : msg) :
  validation_of d = Ok (false, m) → nonempty m = true.
Proof.
  rewrite validation_of_unfold. intros Hv.
  repeat case_match; by simplify_eq.
Qed.

(** The record a prediction leaves behind. *)
Lemma predict_with_details_record
    (self : FraudDetectionModel) (l : loc) (t : Q) (w : world) :
  heap (snd (predict_with_details self l t w)) l
  = if adds_time self (heap w l) then <["Time" := PyInt 0]> (heap w l)
    else heap w l.
Proof.
  destruct (predict_with_details_snd self l t w) as [evs ->].
  cbn [heap]. unfold heap_after.
  destruct (adds_time self (heap w l)); [|done].
  by rewrite fn_lookup_insert.
Qed.

Lemma adds_time_scored (self : FraudDetectionModel) (d : dict) (m : msg) :
  is_Some (model self) → validation_of d = Ok (true, m) →
  (if adds_time self d then <["Time" := PyInt 0]> d else d)
  = with_default_time d.
Proof.
  intros [clf Hclf] Hv. unfold adds_time, with_default_time.
  by rewrite Hclf, Hv.
Qed.

Lemma probability_of_model (self : FraudDetectionModel) (d : dict) (e : exn) :
  probability_of self d = Raise e → nonempty (str e) = false →
  is_Some (model self).
Proof.
  rewrite probability_of_eq. destruct (model self); [by eexists|].
  by intros [= <-].
Qed.


(** X22. What /explain answers for a published model, a JSON body and
    an accepted threshold. A prediction with an error text is answered
    400 with that text: the validation message of a refused record and,
    unlike /predict, the text of the exception when scoring fails. A
    scored record is answered 200 with the score and with an explanation
    computed from the record after the default "Time" was written into
    it; the LLM is looked up twice. An exception whose text is empty is
    not taken for an error: the answer is 200 with every field null. *)
Theorem explain_answers_400_for_every_failed_prediction
    (req : Request) (s : llm) (w : world) (fm : FraudDetectionModel) (t : Q) :
  let tx := default (payload req) (transaction_field req) in
  let d := heap w tx in
  fraud_model w = Some fm → is_json req = true →
  api.parse_threshold
    (default (PyFloat 0.5) (heap w (payload req) !! "threshold"))
  = Ok (inl t) →
  (∀ m, validation_of d = Ok (false, m) →
        fst (explain_fraud req s w) = Ok (ErrorBody m, 400%nat, s))
  ∧ (∀ m e, validation_of d = Ok (true, m) →
            probability_of fm d = Raise e → nonempty (str e) = true →
            fst (explain_fraud req s w) = Ok (ErrorBody (str e), 400%nat, s))
  ∧ (∀ p, probability_of fm d = Ok p →
          let ex := explain_transaction (with_default_time d)
                      (scored fm p t) s in
          let av := llm_available (snd ex) in
          fst (explain_fraud req s w)
          = Ok (ExplainBody (fst ex) (Some (round p 4)) (Some (Qgeb p t))
                  (Some (round (Py.max p (1 - p)) 4)) (Some (risk_of p)) t
                  (Some (metrics_get (metrics fm) "model_name",
                         metrics_get (metrics fm) "roc_auc")) (fst av),
                200%nat, snd av))
  ∧ (∀ m e, validation_of d = Ok (true, m) →
            probability_of fm d = Raise e → nonempty (str e) = false →
            let ex := explain_transaction (with_default_time d)
                        (error_payload (str e)) s in
            let av := llm_available (snd ex) in
            fst (explain_fraud req s w)
            = Ok (ExplainBody (fst ex) None None None None t None (fst av),
                  200%nat, snd av)).
Proof.
  intros tx d Hfm Hjson Hthr.
  rewrite explain_fraud_eq. cbn zeta. fold tx. rewrite Hfm, Hjson, Hthr.
  cbn [negb].
  pose proof (predict_with_details_fst fm tx t w) as Hfst.
  pose proof (predict_with_details_record fm tx t w) as Hrec.
  fold d in Hfst, Hrec. rewrite details_of_eq in Hfst.
  destruct (predict_with_details fm tx t w) as [res w1].
  cbn [fst snd] in Hfst, Hrec. split_and?.
  - intros m Hm. rewrite Hm in Hfst. subst res.
    cbn [error error_payload from_option id].
    by rewrite (validation_refusal_nonempty d m Hm).
  - intros m e Hm He Hne. rewrite Hm, He in Hfst. subst res.
    cbn [error error_payload from_option id]. by rewrite Hne.
  - intros p Hp.
    pose proof (probability_of_valid _ _ _ Hp) as Hm.
    rewrite Hm, Hp in Hfst. subst res.
    cbn [error scored from_option id fst].
    rewrite Hrec, (adds_time_scored fm d MsgOK); [done| |done].
    rewrite probability_of_eq in Hp. destruct (model fm); [by eexists|done].
  - intros m e Hm He Hne.
    rewrite Hm, He in Hfst. subst res.
    cbn [error error_payload from_option id]. rewrite Hne. cbn [fst].
    rewrite Hrec, (adds_time_scored fm d m); [done| |done].
    by apply (probability_of_model fm d e).
Qed.

End explain_facts.

Section more_instances.
Import preprocess inference api examples fixtures.

Lemma validation_reads_required_fields_only_witness :
  let w1 := world_of 0.5 create_sample_transaction in
  let w2 := world_of 0.5 null_time in
  (∀ f, f ∈ required_features → heap w1 0%nat !! f = heap w2 0%nat !! f)
  ∧ fst (validate_transaction_data 0%nat w1)
    = fst (validate_transaction_data 0%nat w2).
Proof.
  intros w1 w2.
  assert (Hagree : ∀ f, f ∈ required_features →
            heap w1 0%nat !! f = heap w2 0%nat !! f).
  { apply Forall_forall.
    repeat (constructor; [vm_compute; reflexivity|]). constructor. }
  split; [exact Hagree|].
  exact (proj1 (validation_reads_required_fields_only 0%nat 0%nat w1 w2
                  Hagree)).
Defined.

Lemma prepare_features_refuses_invalid_record_witness :
  let w := world_of 0.8 refund in
  fst (validate_transaction_data 0%nat w) = Ok (false, MsgNegativeAmount)
  ∧ ∃ w', prepare_features (preprocessor (loaded_model 0.8)) 0%nat w
          = (Raise (ValueError (MsgValidation MsgNegativeAmount)), w')
          ∧ heap w' = heap w.
Proof.
  intros w.
  assert (Hv : fst (validate_transaction_data 0%nat w)
               = Ok (false, MsgNegativeAmount)) by (vm_compute; reflexivity).
  split; [exact Hv|].
  destruct (prepare_features_refuses_invalid_record
              (preprocessor (loaded_model 0.8)) 0%nat w MsgNegativeAmount Hv)
    as (w' & evs & Hrun & Hheap & _).
  exists w'. split; [exact Hrun|exact Hheap].
Defined.

Lemma prepare_features_without_scaler_still_defaults_time_witness :
  let w := world_of 0.5 create_sample_transaction in
  dp_scaler no_scaler = None
  ∧ TransactionRecord (heap w 0%nat)
  ∧ fst (validate_transaction_data 0%nat w) = Ok (true, MsgOK)
  ∧ ∃ w', prepare_features no_scaler 0%nat w
          = (Raise (ValueError MsgScalerNotLoaded), w')
          ∧ heap w' 0%nat !! "Time" = Some (PyInt 0).
Proof.
  intros w.
  assert (Hrec : TransactionRecord (heap w 0%nat))
    by exact sample_is_transaction_record.
  assert (Hval : fst (validate_transaction_data 0%nat w) = Ok (true, MsgOK))
    by (vm_compute; reflexivity).
  split; [reflexivity|]. split; [exact Hrec|]. split; [exact Hval|].
  destruct (prepare_features_without_scaler_still_defaults_time
              no_scaler 0%nat w eq_refl Hrec Hval) as (w' & Hrun & _ & Htime).
  exists w'. split; [exact Hrun|]. apply Htime. reflexivity.
Defined.

Lemma probability_is_classifier_of_scaled_features_witness :
  let w := world_of 0.5 create_sample_transaction in
  fst (predict_fraud_probability (loaded_model 0.5) 0%nat w) = Ok 0.5%Q
  ∧ ∃ features scaled,
      length features = 30%nat
      ∧ affine_scaler 0 1 features = Ok scaled
      ∧ trace (snd (predict_fraud_probability (loaded_model 0.5) 0%nat w))
        = [EvValidate; EvTransform features; EvPredictProba scaled;
           EvLog Info (MsgPrediction 0.5)].
Proof.
  intros w.
  assert (Hp : fst (predict_fraud_probability (loaded_model 0.5) 0%nat w)
               = Ok 0.5%Q) by (vm_compute; reflexivity).
  split; [exact Hp|].
  destruct (probability_is_classifier_of_scaled_features
              (loaded_model 0.5) 0%nat w 0.5 Hp)
    as (clf & sc & features & scaled & _ & Hsc & _ & Hlen & Hscaled & _ & Htr).
  injection Hsc as <-.
  exists features, scaled. split; [exact Hlen|]. split; [exact Hscaled|].
  exact Htr.
Defined.

Lemma probability_failure_is_logged_once_and_reraised_witness :
  let w := world_of 0.8 refund in
  let e := ValueError (MsgValidation MsgNegativeAmount) in
  fst (predict_fraud_probability (loaded_model 0.8) 0%nat w) = Raise e
  ∧ ∃ evs,
      trace (snd (predict_fraud_probability (loaded_model 0.8) 0%nat w))
      = (evs ++ [EvLog Error (MsgPredictionError (str e))])%list
      ∧ ∀ m, EvLog Error m ∉ evs.
Proof.
  intros w e.
  assert (He : fst (predict_fraud_probability (loaded_model 0.8) 0%nat w)
               = Raise e) by (vm_compute; reflexivity).
  split; [exact He|].
  destruct (probability_failure_is_logged_once_and_reraised
              (loaded_model 0.8) 0%nat w e He)
    as [(Hnone & _)|(clf & evs & _ & Htr & Hno & _)].
  - discriminate Hnone.
  - exists evs. split; [exact Htr|exact Hno].
Defined.

Lemma predict_answers_400_only_for_refused_records_witness :
  let w := world_of 0.8 refund in
  let req := {| is_json := true; get_json := 0%nat |} in
  fraud_model w = Some (loaded_model 0.8) ∧ is_json req = true
  ∧ size (heap w 0%nat) ≠ 0%nat
  ∧ parse_threshold (default (PyFloat 0.5) (heap w 0%nat !! "threshold"))
    = Ok (inl 0.5%Q)
  ∧ fst (predict_fraud req w) = Ok (ErrorBody MsgNegativeAmount, 400%nat).
Proof.
  intros w req.
  assert (Hsize : size (heap w 0%nat) ≠ 0%nat) by (vm_compute; discriminate).
  assert (Hthr : parse_threshold
                   (default (PyFloat 0.5) (heap w 0%nat !! "threshold"))
                 = Ok (inl 0.5%Q)) by (vm_compute; reflexivity).
  split; [reflexivity|]. split; [reflexivity|]. split; [exact Hsize|].
  split; [exact Hthr|].
  destruct (predict_answers_400_only_for_refused_records req w
              (loaded_model 0.8) 0.5 eq_refl eq_refl Hsize Hthr)
    as (Hrefused & _).
  apply Hrefused. vm_compute. reflexivity.
Defined.

Lemma successful_predict_validates_thrice_and_scores_once_witness :
  let w := world_of 0.5 create_sample_transaction in
  let req := {| is_json := true; get_json := 0%nat |} in
  fraud_model w = Some (loaded_model 0.5) ∧ is_json req = true
  ∧ size (heap w 0%nat) ≠ 0%nat
  ∧ parse_threshold (default (PyFloat 0.5) (heap w 0%nat !! "threshold"))
    = Ok (inl 0.5%Q)
  ∧ probability_of (loaded_model 0.5) (delete "threshold" (heap w 0%nat))
    = Ok 0.5%Q
  ∧ ∃ features scaled,
      trace (snd (predict_fraud req w))
      = [EvValidate; EvValidate; EvValidate;
         EvTransform features; EvPredictProba scaled;
         EvLog Info (MsgPrediction 0.5);
         EvLog Info (MsgDetails (round 0.5 4) (Qgeb 0.5 0.5));
         EvLog Info (MsgPredictDone (Some (round 0.5 4))
                       (Some (Qgeb 0.5 0.5)))].
Proof.
  intros w req.
  assert (Hsize : size (heap w 0%nat) ≠ 0%nat) by (vm_compute; discriminate).
  assert (Hthr : parse_threshold
                   (default (PyFloat 0.5) (heap w 0%nat !! "threshold"))
                 = Ok (inl 0.5%Q)) by (vm_compute; reflexivity).
  assert (Hp : probability_of (loaded_model 0.5)
                 (delete "threshold" (heap w 0%nat)) = Ok 0.5%Q)
    by (vm_compute; reflexivity).
  split; [reflexivity|]. split; [reflexivity|]. split; [exact Hsize|].
  split; [exact Hthr|]. split; [exact Hp|].
  destruct (successful_predict_validates_thrice_and_scores_once req w
              (loaded_model 0.5) 0.5 0.5 eq_refl eq_refl Hsize Hthr Hp)
    as (sc & clf & features & scaled & _ & _ & _ & _ & _ & Htr).
  exists features, scaled. exact Htr.
Defined.

Lemma load_model_returns_a_complete_model_witness :
  let s := fresh (artifacts 0.5) in
  let s' := snd (startup.load_model "/srv/model" s) in
  startup.load_model "/srv/model" s = (startup.Done (described_model 0.5), s')
  ∧ startup.global_model s' = None
  ∧ ∃ sc, scaler (described_model 0.5) = Some sc
          ∧ dp_scaler (preprocessor (described_model 0.5)) = Some sc.
Proof.
  intros s s'.
  assert (Hrun : startup.load_model "/srv/model" s
                 = (startup.Done (described_model 0.5), s'))
    by (vm_compute; reflexivity).
  split; [exact Hrun|].
  destruct (load_model_returns_a_complete_model "/srv/model" s s'
              (described_model 0.5) Hrun)
    as (c & sc & _ & _ & _ & Hsc & Hdp & _ & _ & Hg & _).
  split; [exact Hg|]. exists sc. split; [exact Hsc|exact Hdp].
Defined.

Lemma load_model_failure_names_the_first_fault_witness :
  let s := fresh no_files in
  let e := startup.ModelNotFound "/srv/model/model.pkl" in
  let s' := snd (startup.load_model "/srv/model" s) in
  startup.load_model "/srv/model" s = (startup.Failed e, s')
  ∧ last (startup.records s') = Some (startup.ModelLoadError e).
Proof.
  intros s e s'.
  assert (Hrun : startup.load_model "/srv/model" s = (startup.Failed e, s'))
    by (vm_compute; reflexivity).
  split; [exact Hrun|].
  exact (proj1 (load_model_failure_names_the_first_fault "/srv/model" s s' e
                  Hrun)).
Defined.

Lemma get_model_is_a_singleton_witness :
  let s := fresh (artifacts 0.5) in
  let i := startup.Instance "/srv/model" (described_model 0.5) in
  let s1 := snd (startup.get_model "/srv/model" s) in
  startup.get_model "/srv/model" s = (startup.Done i, s1)
  ∧ startup.get_model "/elsewhere" s1 = (startup.Done i, s1).
Proof.
  intros s i s1.
  assert (Hrun : startup.get_model "/srv/model" s = (startup.Done i, s1))
    by (vm_compute; reflexivity).
  split; [exact Hrun|].
  destruct (get_model_is_a_singleton "/srv/model" "/elsewhere" s s1 i Hrun)
    as (_ & Hagain & _).
  exact Hagain.
Defined.

Lemma model_info_names_match_predictions_witness :
  let i := info.ModelInfo true true "/srv/model" (Some (PyStr "XGBoost"))
             (Some (PyFloat 0.97)) (Some 30%nat) in
  info.get_model_info (described_model 0.5) "/srv/model" = Ok i
  ∧ inference.model_info (scored (described_model 0.5) 0.5 0.5)
    = Some (PyStr "XGBoost", PyFloat 0.97).
Proof.
  intros i.
  assert (Hi : info.get_model_info (described_model 0.5) "/srv/model" = Ok i)
    by (vm_compute; reflexivity).
  split; [exact Hi|].
  exact (model_info_names_match_predictions (described_model 0.5)
           "/srv/model" i 0.5 0.5 Hi).
Defined.


Lemma explain_answers_400_for_every_failed_prediction_witness :
  let w := world_of 0.5 create_sample_transaction in
  let s := explain.Llm None [] in
  fraud_model w = Some (loaded_model 0.5)
  ∧ explain.is_json flat_request = true
  ∧ parse_threshold (default (PyFloat 0.5) (heap w 0%nat !! "threshold"))
    = Ok (inl 0.5%Q)
  ∧ probability_of (loaded_model 0.5) (heap w 0%nat) = Ok 0.5%Q
  ∧ ∃ s', fst (explain.explain_fraud flat_request s w)
          = Ok (explain.ExplainBody explain.Unavailable
                  (Some (round 0.5 4)) (Some true) (Some (round 0.5 4))
                  (Some Medium) 0.5
                  (Some (PyStr "Unknown", PyStr "Unknown")) false,
                200%nat, s')
          ∧ explain.records s'
            = [explain.LibraryMissing; explain.LibraryMissing].
Proof.
  intros w s.
  assert (Hthr : parse_threshold
                   (default (PyFloat 0.5) (heap w 0%nat !! "threshold"))
                 = Ok (inl 0.5%Q)) by (vm_compute; reflexivity).
  assert (Hp : probability_of (loaded_model 0.5) (heap w 0%nat) = Ok 0.5%Q)
    by (vm_compute; reflexivity).
  split; [reflexivity|]. split; [reflexivity|]. split; [exact Hthr|].
  split; [exact Hp|].
  destruct (explain_answers_400_for_every_failed_prediction flat_request s w
              (loaded_model 0.5) 0.5 eq_refl eq_refl Hthr)
    as (_ & _ & Hscored & _).
  eexists. split; [exact (Hscored 0.5%Q Hp)|]. reflexivity.
Defined.

End more_instances.

Section edge_instances.
Import preprocess inference api examples fixtures.

Lemma predict_refuses_bodies_without_a_record_witness :
  let w := world_of 0.5 ∅ in
  let req := {| is_json := true; get_json := 0%nat |} in
  fraud_model w = Some (loaded_model 0.5) ∧ is_json req = true
  ∧ heap w 0%nat = ∅
  ∧ predict_fraud req w = (Ok (ErrorBody MsgEmptyBody, 400%nat), w).
Proof.
  intros w req.
  split; [reflexivity|]. split; [reflexivity|]. split; [reflexivity|].
  destruct (predict_refuses_bodies_without_a_record req w (loaded_model 0.5)
              eq_refl eq_refl) as (Hempty & _).
  exact (Hempty eq_refl).
Defined.

Lemma predict_batch_asks_for_transactions_first_witness :
  let w := world_of 0.5 create_sample_transaction in
  let req := {| batch_is_json := true; batch_transactions := None;
                batch_threshold := Some (PyFloat 1.5) |} in
  fraud_model w = Some (loaded_model 0.5) ∧ batch_is_json req = true
  ∧ batch_transactions req = None
  ∧ predict_batch req w = (Ok (ErrorBody MsgExpectTransactions, 400%nat), w).
Proof.
  intros w req.
  split; [reflexivity|]. split; [reflexivity|]. split; [reflexivity|].
  destruct (predict_batch_asks_for_transactions_first req w (loaded_model 0.5)
              eq_refl eq_refl) as (Hnone & _).
  exact (Hnone eq_refl).
Defined.

End edge_instances.
